(** * like_plugin: the like-requester loop and the command handler

    A shallow embedding of [src/plugin.py]:
    - [send_like], the loop that posts to the gateway in increments of 10 until
      the cap of 50 is reached or a call fails;
    - [LikeCommand.execute] and [LikeCommand.reply], the command handler;
    - [LikeCommand.command_pattern], the trigger regular expression.

    Python objects are modelled by [value]; the gateway and the host framework
    are oracles; side effects are recorded as a list of [event]s.

    What the model leaves out: the logger calls; cancellation of the coroutine.
    The calls into the host framework (identity lookup, configuration, sending,
    rewriting) are taken to return. The two exceptions that escape [send_like]
    are kept: the refusal of the base URL when the HTTP client is built, and
    [data_json.get] on a JSON document that is not an object. *)

From Stdlib Require Import ZArith String Ascii List Lia Bool.
From Stdlib Require Import Floats.SpecFloat.
From stdpp Require Import base option list gmap strings pretty.
From Equations Require Import Equations.
Import ListNotations.

#[local] Set Warnings "-register-all".
#[local] Open Scope string_scope.
#[local] Open Scope list_scope.
#[local] Open Scope Z_scope.

(** ** Python values *)

(** The Python objects the plugin handles: what [resp.json()] can return
    (None, bool, int, float, str, list, dict with string keys) and what the
    configuration and the message context hold. *)
Inductive value : Type :=
| VNone
| VBool (b : bool)
| VInt (z : Z)
| VFloat (f : spec_float)
| VStr (s : string)
| VList (l : list value)
| VDict (m : gmap string value).

(** Python truth value testing ([if x], [not x]). *)
Definition truthy (v : value) : bool :=
  match v with
  | VNone => false
  | VBool b => b
  | VInt z => negb (z =? 0)
  | VFloat (S754_zero _) => false
  | VFloat _ => true
  | VStr s => negb (String.eqb s "")
  | VList l => match l with [] => false | _ :: _ => true end
  | VDict m => negb (bool_decide (m = ∅))
  end.

(** [v != s] for a string literal [s]: only the very string [s] is equal to it. *)
Definition ne_str (v : value) (s : string) : bool :=
  match v with
  | VStr t => negb (String.eqb t s)
  | _ => true
  end.

(** [d.get(key, dflt)] *)
Definition dict_get (m : gmap string value) (key : string) (dflt : value) : value :=
  default dflt (m !! key).

(** Exceptions that escape the modelled functions: [data_json.get] on a
    document without that method, and httpx refusing the base URL. *)
Inductive exn : Type :=
| AttributeError
| InvalidURL.

(** ** The gateway *)

(** What one iteration of the loop can observe of one [client.post]: the call
    raises; the call returns but reading [resp.text] raises; the text is read
    but [resp.json()] raises; or both succeed, with the body text and the
    decoded document. [resp.json()] is only reached once the text was read. *)
Inductive call_result : Type :=
| PostRaises
| TextRaises
| JsonRaises (text : string)
| JsonReply (text : string) (data : value).

(** The gateway answers the [n]-th call (counted from 0) of one invocation. *)
Definition gateway : Type := nat -> call_result.

(** ** send_like *)

Definition times_per_request : Z := 10.
Definition max_total : Z := 50.

(** The variables the loop updates, and the number of requests posted so far. *)
Record loop_state : Type := LoopState {
  count : Z;
  failed_message : value;
  posts : nat
}.

(** The state [send_like] enters the loop with. *)
Definition initial : loop_state := LoopState 0 (VStr "") 0.

Inductive step_result : Type :=
| Continue (st : loop_state)
| Break (st : loop_state)
| Raise (e : exn) (st : loop_state).

(** The body of [while True:], lines 48-76, for the answer [r] to this
    iteration's post. *)
Definition loop_body (r : call_result) (st : loop_state) : step_result :=
  let n := S (posts st) in
  match r with
  | PostRaises => Break (LoopState (count st) (VStr "网络请求异常") n)
  | TextRaises => Break (LoopState (count st) (VStr "读取响应失败") n)
  | JsonRaises _ => Break (LoopState (count st) (VStr "响应解析失败") n)
  | JsonReply text (VDict data_json) =>
      if ne_str (dict_get data_json "status" VNone) "ok" then
        let msg := dict_get data_json "message" VNone in
        if negb (truthy msg)
        then Break (LoopState (count st) (VStr ("未知错误，响应内容: " +:+ text)) n)
        else Break (LoopState (count st) msg n)
      else
        let c := count st + times_per_request in
        if c >=? max_total
        then Break (LoopState c (VStr ("已达到单次点赞上限" +:+ pretty max_total +:+ "次")) n)
        else Continue (LoopState c (failed_message st) n)
  | JsonReply _ _ => Raise AttributeError (LoopState (count st) (failed_message st) n)
  end.

(** Keeps the equation of a scrutinee for the termination argument. *)
Definition inspect {A : Type} (x : A) : {y : A | x = y} := exist _ x eq_refl.

Inductive loop_exit : Type :=
| Exited (st : loop_state)
| Raised (e : exn) (st : loop_state).

(** [while True:] — every round that continues has brought [count] closer to
    [max_total], which is what makes the loop end. *)
Equations? send_like_loop (gw : gateway) (st : loop_state) : loop_exit
  by wf (Z.to_nat (max_total - count st)) lt :=
  send_like_loop gw st with inspect (loop_body (gw (posts st)) st) := {
    | exist _ (Continue st') H => send_like_loop gw st'
    | exist _ (Break st') _ => Exited st'
    | exist _ (Raise e st') _ => Raised e st' }.
Proof.
  revert H. unfold loop_body.
  destruct (gw (posts st)) as [| | t | t [| | | | | |m]]; try discriminate.
  destruct (ne_str _ _); [destruct (negb _); discriminate|].
  destruct (Z.geb_spec (count st + times_per_request) max_total); [discriminate|].
  intros [= <-]. simpl. unfold times_per_request, max_total in *. lia.
Qed.

(** ** Effects *)

(** The calls the plugin makes to the outside, in the order it makes them. *)
Inductive event : Type :=
| EvGetPersonId (platform : string) (user_id : value)
| EvGetPersonValue (person_id : value) (field : string)
| EvSendText (content : value)
| EvPost (base_url path : string) (payload : value) (headers : gmap string value)
| EvRewrite (reply_data enable_chinese_typo enable_splitter : value)
| EvSleep (milliseconds : Z).

Inductive result (A : Type) : Type :=
| Returned (a : A)
| Raises (e : exn).
Arguments Returned {A} a.
Arguments Raises {A} e.

(** A computation: the events it causes, then its value or the exception that
    ends it. *)
Definition io (A : Type) : Type := list event * result A.

#[global] Instance io_ret : MRet io := λ A a, ([], Returned a).
#[global] Instance io_bind : MBind io := λ A B f m,
  match m with
  | (t, Returned a) => let '(t', r) := f a in ((t ++ t')%list, r)
  | (t, Raises e) => (t, Raises e)
  end.

Definition emit (e : event) : io unit := ([e], Returned tt).

Definition is_post (e : event) : bool :=
  match e with EvPost _ _ _ _ => true | _ => false end.

Definition is_person_lookup (e : event) : bool :=
  match e with EvGetPersonId _ _ | EvGetPersonValue _ _ => true | _ => false end.

(** The number of HTTP calls among the events of a computation. *)
Definition http_calls {A : Type} (m : io A) : nat :=
  length (List.filter is_post (fst m)).

Section Plugin.

(** Python's [repr] of floats, lists and dicts, which the f-strings of the
    plugin would use for such objects; it is not reproduced here. *)
Variable repr_compound : value -> string.

(** [str(v)], as an f-string field [{v}] formats it. *)
Definition py_str (v : value) : string :=
  match v with
  | VNone => "None"
  | VBool true => "True"
  | VBool false => "False"
  | VInt z => pretty z
  | VStr s => s
  | _ => repr_compound v
  end.

(** Whether [httpx.AsyncClient(base_url=...)] accepts a base URL; when it does
    not, building the client raises [InvalidURL]. The check is httpx's and is
    not reproduced here. *)
Variable client_accepts : string -> bool.

(** The base URL of line 33. *)
Definition base_url_of (napcat_host napcat_port : value) : string :=
  "http://" +:+ py_str napcat_host +:+ ":" +:+ py_str napcat_port.

(** [send_like], lines 23-80. The client is built once, outside every [try]:
    if httpx refuses the base URL nothing is posted and the exception escapes.
    Every round of the loop posts the same payload with the same headers. *)
Definition send_like (gw : gateway)
    (user_id napcat_host napcat_port napcat_token : value) : io (bool * Z * value) :=
  let base_url := base_url_of napcat_host napcat_port in
  let path := "/send_like" in
  let headers : gmap string value := {[ "Content-Type" := VStr "application/json" ]} in
  let headers :=
    if truthy napcat_token then <[ "Authorization" := napcat_token ]> headers else headers in
  let payload := VDict {[ "user_id" := user_id; "times" := VInt times_per_request ]} in
  let request := EvPost base_url path payload headers in
  if client_accepts base_url then
    match send_like_loop gw initial with
    | Exited st =>
        (replicate (posts st) request,
         Returned (if 0 <? count st then (true, count st, VStr "")
                   else (false, 0, failed_message st)))
    | Raised e st => (replicate (posts st) request, Raises e)
    end
  else ([], Raises InvalidURL).

(** ** The command handler *)

(** What the host framework gives a command: the message it was triggered by,
    the identity lookup, the plugin configuration (by dotted key), the global
    configuration flag, the rewrite service and, behind it all, the gateway. *)
Record host : Type := Host {
  message_user_id : value;
  person_id_of : string -> value -> value;
  person_value_of : value -> string -> value;
  plugin_config : gmap string value;
  chinese_typo_enable : value;
  rewrite_reply : value -> value -> value -> value * list value;
  napcat : gateway
}.

(** [self.get_config(key, default)] *)
Definition get_config (h : host) (key : string) (dflt : value) : value :=
  default dflt (plugin_config h !! key).

Definition send_text (content : value) : io unit := emit (EvSendText content).

(** [LikeCommand.reply], lines 115-142. *)
Definition reply (h : host) (raw_reply : string) : io string :=
  let direct : io string :=
    send_text (VStr raw_reply);; mret "已发送点赞回复" in
  if truthy (get_config h "like_plugin.enable_rewrite_reply" VNone) then
    let rewrite_data := VDict {[
      "raw_reply" := VStr raw_reply;
      "reason" := VStr "用户正在请求点赞。你尝试进行了点赞，请根据点赞结果生成回复。" ]} in
    let typo := chinese_typo_enable h in
    let splitter := get_config h "enable_splitter.enable_splitter" (VBool false) in
    emit (EvRewrite rewrite_data typo splitter);;
    let '(result_status, reply_data) := rewrite_reply h rewrite_data typo splitter in
    if truthy result_status then
      (flat_map (λ send_data, [EvSendText send_data; EvSleep 300]) reply_data,
       Returned "已发送重写后的点赞回复")
    else direct
  else direct.

(** [LikeCommand.execute], lines 92-113. *)
Definition execute (h : host) : io (bool * option string * Z) :=
  let user_id := message_user_id h in
  let person_id := person_id_of h "qq" user_id in
  emit (EvGetPersonId "qq" user_id);;
  let person_name := person_value_of h person_id "person_name" in
  emit (EvGetPersonValue person_id "person_name");;
  if negb (truthy user_id) then
    send_text (VStr "无法获取用户ID,点赞失败");;
    mret (false, Some "无法获取用户ID", 1)
  else
    let napcat_host := get_config h "napcat.host" VNone in
    let napcat_port := get_config h "napcat.port" VNone in
    let napcat_token := get_config h "napcat.token" (VStr "") in
    if negb (truthy napcat_port) || negb (truthy napcat_host) then
      reply h "Napcat服务配置不完整，点赞失败";;
      mret (false, Some "Napcat服务配置不完整", 1)
    else
      '(success, count, failed_message) ←
        send_like (napcat h) user_id napcat_host napcat_port napcat_token;
      let target := if truthy person_name then "为 " +:+ py_str person_name +:+ " " else "" in
      let raw_reply :=
        if success : bool
        then "已成功" +:+ target +:+ "点赞 " +:+ py_str (VInt count) +:+ " 次"
        else target +:+ "点赞失败: " +:+ py_str failed_message in
      reply_result ← reply h raw_reply;
      mret (success, Some (raw_reply +:+ " " +:+ reply_result), 1).

End Plugin.

(** ** The trigger pattern *)

(** The fragment of Python's [re] syntax that [command_pattern] uses. Texts are
    strings of bytes (UTF-8); the pattern has only literal characters, so
    matching bytes and matching code points agree. *)
Inductive regex : Type :=
| Bol                        (* ^ *)
| Eol                        (* $ *)
| Lit (s : string)           (* a run of literal characters *)
| Cat (r1 r2 : regex)        (* r1 r2 *)
| Alt (r1 r2 : regex)        (* r1 | r2 *)
| Opt (r : regex)            (* r ? *)
| Group (r : regex).         (* ( r ) *)

Fixpoint strip_prefix (p s : string) : option string :=
  match p, s with
  | EmptyString, _ => Some s
  | String a p', String b s' => if Ascii.eqb a b then strip_prefix p' s' else None
  | String _ _, EmptyString => None
  end.

Definition newline : string := String (ascii_of_nat 10) EmptyString.

(** All the ways [r] can match at position [pos], where [rest] is what is left
    of the text: the positions and remainders after the match. Without flags,
    [^] matches at position 0 only, and [$] at the end of the text or just
    before a line feed that ends it. *)
Fixpoint run (r : regex) (pos : nat) (rest : string) : list (nat * string) :=
  match r with
  | Bol => if Nat.eqb pos 0 then [(pos, rest)] else []
  | Eol => if String.eqb rest "" || String.eqb rest newline then [(pos, rest)] else []
  | Lit s =>
      match strip_prefix s rest with
      | Some rest' => [((pos + String.length s)%nat, rest')]
      | None => []
      end
  | Cat r1 r2 => flat_map (λ '(p, t), run r2 p t) (run r1 pos rest)
  | Alt r1 r2 => (run r1 pos rest ++ run r2 pos rest)%list
  | Opt r => (run r pos rest ++ [(pos, rest)])%list
  | Group r => run r pos rest
  end.

(** [re.match(r, text)] succeeds. *)
Definition re_match (r : regex) (text : string) : bool :=
  match run r 0 text with [] => false | _ :: _ => true end.

(** [re.fullmatch(r, text)] succeeds: some match ends at the end of the text. *)
Definition re_fullmatch (r : regex) (text : string) : bool :=
  existsb (λ '(_, t), String.eqb t "") (run r 0 text).

(** [command_pattern], line 90:
    [^(((/|#)(like))|(/|#)?(赞我|麦麦赞我))$] *)
Definition command_pattern : regex :=
  Cat Bol
   (Cat (Group (Alt (Group (Cat (Group (Alt (Lit "/") (Lit "#"))) (Group (Lit "like"))))
                    (Cat (Opt (Group (Alt (Lit "/") (Lit "#"))))
                         (Group (Alt (Lit "赞我") (Lit "麦麦赞我"))))))
        Eol).

(** The texts the specification lists for the trigger. *)
Definition listed_texts : list string :=
  ["/like"; "#like"; "like"; "/赞我"; "#赞我"; "赞我"; "/麦麦赞我"; "#麦麦赞我"; "麦麦赞我"].

(** The same list without the bare word. *)
Definition trigger_texts : list string :=
  ["/like"; "#like"; "/赞我"; "#赞我"; "赞我"; "/麦麦赞我"; "#麦麦赞我"; "麦麦赞我"].

(** The words of a pattern without anchors (there is no repetition, so they
    are finitely many). *)
Fixpoint words (r : regex) : list string :=
  match r with
  | Bol | Eol => []
  | Lit s => [s]
  | Cat r1 r2 => flat_map (λ w1, map (String.append w1) (words r2)) (words r1)
  | Alt r1 r2 => (words r1 ++ words r2)%list
  | Opt r => (words r ++ [""])%list
  | Group r => words r
  end.

Fixpoint anchor_free (r : regex) : bool :=
  match r with
  | Bol | Eol => false
  | Lit _ => true
  | Cat r1 r2 | Alt r1 r2 => anchor_free r1 && anchor_free r2
  | Opt r | Group r => anchor_free r
  end.

(** ** The configuration schema *)

(** The [type=] argument of a [ConfigField]. *)
Inductive field_type : Type := TBool | TStr | TInt.

(** [ConfigField(type=..., default=..., description=...)] *)
Record ConfigField : Type := Field {
  field_kind : field_type;
  field_default : value;
  field_description : string
}.

(** [LikePlugin.config_schema], lines 166-177: sections, and fields by
    section. *)
Definition config_schema : gmap string (gmap string ConfigField) :=
  {[ "like_plugin" := {[
       "enable_rewrite_reply" := Field TBool (VBool true) "是否启用使用bot人设重写回复";
       "enable_splitter" := Field TBool (VBool false) "是否启用长回复分段发送" ]};
     "napcat" := {[
       "host" := Field TStr (VStr "127.0.0.1") "Napcat服务地址";
       "port" := Field TInt (VInt 9999) "Napcat服务端口";
       "token" := Field TStr (VStr "") "Napcat服务认证Token" ]} ]}.

(** The dotted key [section.field] names a field of the schema. *)
Definition declared (key : string) : Prop :=
  ∃ section fields field spec,
    config_schema !! section = Some fields ∧ fields !! field = Some spec ∧
    key = section +:+ "." +:+ field.

(** * Vocabulary of the properties *)

(** A reply the loop treats as success: a JSON object whose [status] is the
    string [ok]. *)
Definition ok_reply (r : call_result) : bool :=
  match r with
  | JsonReply _ (VDict m) =>
      match m !! "status" with
      | Some (VStr status) => String.eqb status "ok"
      | _ => false
      end
  | _ => false
  end.

(** The state after [k] successful rounds below the cap. *)
Definition after_ok (k : nat) : loop_state :=
  LoopState (times_per_request * Z.of_nat k) (VStr "") k.

(** The state in which the loop was left. *)
Definition exit_state (x : loop_exit) : loop_state :=
  match x with Exited st | Raised _ st => st end.

Definition is_dict (v : value) : bool :=
  match v with VDict _ => true | _ => false end.

(** The failure message of a round that stops on a reply that is an object
    without the status [ok]: its [message] field when present and non-empty
    (in Python's sense: truthy), else the text of the body after a fixed
    prefix. *)
Definition stop_message (m : gmap string value) (text : string) : value :=
  match m !! "message" with
  | Some msg => if truthy msg then msg else VStr ("未知错误，响应内容: " +:+ text)
  | None => VStr ("未知错误，响应内容: " +:+ text)
  end.

(** The texts sent to the chat, in the order they are sent. *)
Definition sent_texts (events : list event) : list value :=
  omap (λ e, match e with EvSendText content => Some content | _ => None end) events.

(** The pauses taken, in milliseconds. *)
Definition pauses (events : list event) : list Z :=
  omap (λ e, match e with EvSleep ms => Some ms | _ => None end) events.

(** The calls of the rewrite service. *)
Definition rewrites (events : list event) : list event :=
  List.filter (λ e, match e with EvRewrite _ _ _ => true | _ => false end) events.

(** An answer on which the loop raises: a JSON document that is not an object. *)
Definition not_an_object (r : call_result) : bool :=
  match r with
  | JsonReply _ data => negb (is_dict data)
  | _ => false
  end.

(** The identity lookup with which [execute] begins. *)
Definition lookups (h : host) : list event :=
  let user_id := message_user_id h in
  [EvGetPersonId "qq" user_id; EvGetPersonValue (person_id_of h "qq" user_id) "person_name"].

(** What stands between [^] and [$] in [command_pattern]. *)
Definition pattern_body : regex :=
  match command_pattern with
  | Cat Bol (Cat body Eol) => body
  | _ => command_pattern
  end.

(** * Concrete gateways and hosts *)

(** A stand-in for [repr] on compound objects. *)
Definition repr_opaque : value → string := λ _, "<object>".

Fixpoint colons (s : string) : nat :=
  match s with
  | EmptyString => 0
  | String c s' => ((if Ascii.eqb c ":" then 1 else 0) + colons s')%nat
  end.

Fixpoint after_colon (s : string) : string :=
  match s with
  | EmptyString => EmptyString
  | String c s' => if Ascii.eqb c ":" then s' else after_colon s'
  end.

Fixpoint all_digits (s : string) : bool :=
  match s with
  | EmptyString => true
  | String c s' => (48 <=? nat_of_ascii c)%nat && (nat_of_ascii c <=? 57)%nat && all_digits s'
  end.

(** A stand-in for httpx's check of a base URL, for the concrete runs below,
    on which it agrees with httpx: it accepts [http://host:port] with a host
    without colon and a port that is a decimal number, and refuses a port
    that is not a number and a second colon. *)
Definition accepts_numeric_port (url : string) : bool :=
  match strip_prefix "http://" url with
  | Some rest =>
      Nat.eqb (colons rest) 1 && negb (String.eqb (after_colon rest) "") &&
      all_digits (after_colon rest)
  | None => false
  end.

Definition quote : string := String (ascii_of_nat 34) EmptyString.

(** The body of an accepting answer, the JSON object with the one field
    status: ok, and its document. *)
Definition ok_body : string :=
  "{" +:+ quote +:+ "status" +:+ quote +:+ ": " +:+ quote +:+ "ok" +:+ quote +:+ "}".
Definition ok_answer : call_result :=
  JsonReply ok_body (VDict {[ "status" := VStr "ok" ]}).

(** The body of a refusing answer, the JSON object with the fields
    status: failed and message: limit, and its document. *)
Definition failed_body : string :=
  "{" +:+ quote +:+ "status" +:+ quote +:+ ": " +:+ quote +:+ "failed" +:+ quote +:+ ", "
      +:+ quote +:+ "message" +:+ quote +:+ ": " +:+ quote +:+ "limit" +:+ quote +:+ "}".
Definition failed_document : gmap string value :=
  {[ "status" := VStr "failed"; "message" := VStr "limit" ]}.

(** A gateway that accepts every request. *)
Definition gateway_all_ok : gateway := λ _, ok_answer.

(** A gateway that accepts three requests and then is unreachable. *)
Definition gateway_three_ok : gateway :=
  λ n, if (n <? 3)%nat then ok_answer else PostRaises.

(** A gateway that is unreachable. *)
Definition gateway_down : gateway := λ _, PostRaises.

(** A gateway that refuses every request with a message. *)
Definition gateway_refusing : gateway := λ _, JsonReply failed_body (VDict failed_document).

(** A gateway that answers with a JSON array. *)
Definition gateway_array : gateway := λ _, JsonReply "[]" (VList []).

Definition config_complete : gmap string value :=
  {[ "like_plugin.enable_rewrite_reply" := VBool false;
     "napcat.host" := VStr "127.0.0.1";
     "napcat.port" := VInt 9999;
     "napcat.token" := VStr "" ]}.

Definition config_without_host : gmap string value :=
  {[ "like_plugin.enable_rewrite_reply" := VBool false;
     "napcat.port" := VInt 9999 ]}.

Definition host_of (user_id : value) (config : gmap string value) (gw : gateway) : host :=
  Host user_id
       (λ platform uid, VStr (platform +:+ "_person")) (λ _ _, VStr "Mai")
       config (VBool false) (λ _ _ _, (VBool false, [])) gw.

(** A message without a user identifier, with the gateway configured. *)
Definition host_without_user : host := host_of VNone config_complete gateway_all_ok.

(** A message of user 10001, with no gateway host configured. *)
Definition host_without_gateway : host :=
  host_of (VStr "10001") config_without_host gateway_all_ok.

(** A message with an empty user identifier, with no gateway host configured. *)
Definition host_without_user_and_gateway : host :=
  host_of (VStr "") config_without_host gateway_all_ok.

(** A message of user 10001, with the gateway configured. *)
Definition host_ready (gw : gateway) : host := host_of (VStr "10001") config_complete gw.

(** A gateway that accepts two requests and refuses the third. *)
Definition gateway_two_ok : gateway :=
  λ n, if (n <? 2)%nat then ok_answer else JsonReply failed_body (VDict failed_document).

(** A gateway that accepts two requests and answers the third with a JSON
    array. *)
Definition gateway_two_ok_then_array : gateway :=
  λ n, if (n <? 2)%nat then ok_answer else JsonReply "[]" (VList []).

(** A configuration that switches rewriting and, under the schema's key, the
    splitter on. *)
Definition config_rewriting : gmap string value :=
  {[ "like_plugin.enable_rewrite_reply" := VBool true;
     "like_plugin.enable_splitter" := VBool true;
     "napcat.host" := VStr "127.0.0.1";
     "napcat.port" := VInt 9999 ]}.

(** A message of user 10001 to a bot whose rewrite service answers with the
    given status and segments. *)
Definition host_rewriting (status : value) (segments : list value) (gw : gateway) : host :=
  Host (VStr "10001")
       (λ platform uid, VStr (platform +:+ "_person")) (λ _ _, VStr "Mai")
       config_rewriting (VBool false) (λ _ _ _, (status, segments)) gw.

(** Rewriting switched on, and no gateway host configured. *)
Definition config_rewriting_without_host : gmap string value :=
  {[ "like_plugin.enable_rewrite_reply" := VBool true;
     "napcat.port" := VInt 9999 ]}.

(** A message of user 10001, with no gateway host configured, to a bot whose
    rewrite service answers with the given status and segments. *)
Definition host_rewriting_without_gateway (status : value) (segments : list value) : host :=
  Host (VStr "10001")
       (λ platform uid, VStr (platform +:+ "_person")) (λ _ _, VStr "Mai")
       config_rewriting_without_host (VBool false) (λ _ _ _, (status, segments))
       gateway_all_ok.

(** A port that is not a number. *)
Definition config_bad_port : gmap string value :=
  {[ "like_plugin.enable_rewrite_reply" := VBool false;
     "napcat.host" := VStr "127.0.0.1";
     "napcat.port" := VStr "abc" ]}.

(** A message of user 10001, with the port [abc] configured. *)
Definition host_bad_port : host := host_of (VStr "10001") config_bad_port gateway_all_ok.

(** The payload [reply] hands to the rewrite service for the text [done]. *)
Definition rewrite_data_done : value :=
  VDict {[ "raw_reply" := VStr "done";
           "reason" := VStr "用户正在请求点赞。你尝试进行了点赞，请根据点赞结果生成回复。" ]}.

(** * Properties *)

(** ** The loop *)

Lemma send_like_loop_step gw st :
  send_like_loop gw st =
  match loop_body (gw (posts st)) st with
  | Continue st' => send_like_loop gw st'
  | Break st' => Exited st'
  | Raise e st' => Raised e st'
  end.
Proof.
  funelim (send_like_loop gw st);
    match goal with E : loop_body _ _ = _ |- _ => rewrite E end; reflexivity.
Qed.

Lemma loop_body_ok r st :
  ok_reply r = true →
  loop_body r st =
  let c := count st + times_per_request in
  if c >=? max_total
  then Break (LoopState c (VStr ("已达到单次点赞上限" +:+ pretty max_total +:+ "次")) (S (posts st)))
  else Continue (LoopState c (failed_message st) (S (posts st))).
Proof.
  destruct r as [| | t | t [| | | | | |m]]; try discriminate. simpl.
  unfold dict_get. destruct (m !! "status") as [[| | | |s| |]|]; try discriminate.
  simpl. intros ->. reflexivity.
Qed.

(** [k] successful rounds from the start leave the loop running as long as
    the cap is not reached. *)
Lemma loop_ok_prefix gw k :
  (k < 5)%nat → (∀ i, (i < k)%nat → ok_reply (gw i) = true) →
  send_like_loop gw initial = send_like_loop gw (after_ok k).
Proof.
  induction k as [|k IH]; intros Hk Hok; [reflexivity|].
  rewrite IH by (try lia; intros; apply Hok; lia).
  rewrite (send_like_loop_step gw (after_ok k)). simpl posts.
  rewrite loop_body_ok by (apply Hok; lia).
  cbv zeta. simpl count. simpl failed_message.
  replace (times_per_request * Z.of_nat k + times_per_request)
    with (times_per_request * Z.of_nat (S k)) by lia.
  destruct (Z.geb_spec (times_per_request * Z.of_nat (S k)) max_total) as [H|H].
  - unfold times_per_request, max_total in H. lia.
  - reflexivity.
Qed.

Lemma filter_post_replicate n e :
  is_post e = true → length (List.filter is_post (replicate n e)) = n.
Proof. intros He. induction n as [|n IH]; simpl; [|rewrite He; simpl; rewrite IH]; done. Qed.

Lemma after_ok_S k :
  LoopState (times_per_request * Z.of_nat k + times_per_request) (VStr "") (S k) =
  after_ok (S k).
Proof. unfold after_ok. f_equal. lia. Qed.

(** One round, by the way it ends. *)
Lemma loop_body_cases r st :
  match loop_body r st with
  | Continue st' =>
      ok_reply r = true ∧ count st + times_per_request < max_total ∧
      st' = LoopState (count st + times_per_request) (failed_message st) (S (posts st))
  | Break st' =>
      posts st' = S (posts st) ∧
      (count st' = count st ∨
       count st' = count st + times_per_request ∧ max_total ≤ count st')
  | Raise e st' =>
      posts st' = S (posts st) ∧ count st' = count st ∧
      ∃ text data, r = JsonReply text data ∧ is_dict data = false
  end.
Proof.
  destruct r as [| | t | t data]; simpl; auto.
  destruct data as [| | | | | |m]; simpl; eauto 7.
  assert (Hstop : ∀ a b, match (if negb (truthy (dict_get m "message" VNone))
                               then Break (LoopState (count st) a (S (posts st)))
                               else Break (LoopState (count st) b (S (posts st))))
                        with
                        | Break st' => posts st' = S (posts st) ∧ count st' = count st
                        | _ => False
                        end).
  { intros a b. destruct (negb _); simpl; auto. }
  specialize (Hstop (VStr ("未知错误，响应内容: " +:+ t)) (dict_get m "message" VNone)).
  destruct (ne_str _ _) eqn:Hne.
  - destruct (if negb _ then _ else _); intuition.
  - clear Hstop. unfold dict_get in Hne.
    destruct (m !! "status") as [[| | | |s| |]|]; try discriminate. simpl in Hne.
    apply negb_false_iff in Hne. rewrite Hne.
    destruct (Z.geb_spec (count st + times_per_request) max_total); simpl; auto with zarith.
Qed.

(** What holds when the loop is left, after any number of successful rounds
    below the cap: it made between one and five posts in all, the count is a
    multiple of the increment up to the cap, and an exception can only come
    from a JSON document that is not an object. *)
Lemma loop_exit_invariant gw d : ∀ k, (k + d = 4)%nat →
  let x := send_like_loop gw (after_ok k) in
  (k < posts (exit_state x) ≤ 5)%nat ∧
  (∃ j, (j ≤ 5)%nat ∧ count (exit_state x) = times_per_request * Z.of_nat j) ∧
  match x with
  | Exited _ => True
  | Raised e _ =>
      ∃ n text data, (n < 5)%nat ∧ gw n = JsonReply text data ∧ is_dict data = false
  end.
Proof.
  induction d as [|d IH]; intros k Hk; cbv zeta;
    rewrite send_like_loop_step; simpl posts;
    pose proof (loop_body_cases (gw k) (after_ok k)) as Hc;
    destruct (loop_body (gw k) (after_ok k)) as [st'|st'|e st']; simpl in *.
  - destruct Hc as (_ & Hlt & _). unfold times_per_request, max_total in Hlt. lia.
  - destruct Hc as (-> & [Hc|[Hc _]]); (split; [lia|split; [|exact I]]).
    + exists k. split; [lia|]. rewrite Hc. reflexivity.
    + exists (S k). split; [lia|]. rewrite Hc. lia.
  - destruct Hc as (-> & Hc & text & data & Hgw & Hd). split; [lia|split].
    + exists k. split; [lia|]. rewrite Hc. reflexivity.
    + exists k, text, data. split; [lia|]. auto.
  - destruct Hc as (_ & _ & ->). rewrite after_ok_S.
    destruct (IH (S k)) as (Hp & Hj & Hr); [lia|]. split; [lia|]. auto.
  - destruct Hc as (-> & [Hc|[Hc _]]); (split; [lia|split; [|exact I]]).
    + exists k. split; [lia|]. rewrite Hc. reflexivity.
    + exists (S k). split; [lia|]. rewrite Hc. lia.
  - destruct Hc as (-> & Hc & text & data & Hgw & Hd). split; [lia|split].
    + exists k. split; [lia|]. rewrite Hc. reflexivity.
    + exists k, text, data. split; [lia|]. auto.
Qed.

(** The only exception of a round is that of [data_json.get]. *)
Lemma loop_body_raise r st e st' : loop_body r st = Raise e st' → e = AttributeError.
Proof.
  unfold loop_body.
  destruct r as [| | t | t [| | | | | |m]]; try discriminate; try (intros [= <- _]; reflexivity).
  destruct (ne_str _ _); [destruct (negb _)|destruct (_ >=? _)]; discriminate.
Qed.

Lemma send_like_loop_raised gw st e st' :
  send_like_loop gw st = Raised e st' → e = AttributeError.
Proof.
  funelim (send_like_loop gw st); intros Hx; try discriminate; eauto.
  injection Hx as -> _. eapply loop_body_raise. eassumption.
Qed.

Section SendLike.

Variable repr : value → string.
Variable accepts : string → bool.
Variables uid nhost nport ntoken : value.

(** The HTTP calls of [send_like], once the client is built, are the rounds of
    its loop. *)
Lemma http_calls_send_like gw :
  accepts (base_url_of repr nhost nport) = true →
  http_calls (send_like repr accepts gw uid nhost nport ntoken) =
  posts (exit_state (send_like_loop gw initial)).
Proof.
  intros Hacc. unfold send_like, http_calls. rewrite Hacc.
  destruct (send_like_loop gw initial); simpl; apply filter_post_replicate; reflexivity.
Qed.

Lemma send_like_exited gw st :
  accepts (base_url_of repr nhost nport) = true →
  send_like_loop gw initial = Exited st →
  snd (send_like repr accepts gw uid nhost nport ntoken) =
  Returned (if 0 <? count st then (true, count st, VStr "") else (false, 0, failed_message st)).
Proof. unfold send_like. intros -> ->. reflexivity. Qed.

(** A refused base URL: nothing is posted and [InvalidURL] escapes. *)
Lemma send_like_refused gw :
  accepts (base_url_of repr nhost nport) = false →
  send_like repr accepts gw uid nhost nport ntoken = ([], Raises InvalidURL).
Proof. unfold send_like. intros ->. reflexivity. Qed.

(** C2. When every reply of the gateway is a JSON object with status [ok],
    [send_like], its client built, makes exactly 5 HTTP calls, leaves the loop
    when the count reaches 50, and returns success with count 50. *)
Theorem send_like_all_ok gw :
  accepts (base_url_of repr nhost nport) = true →
  (∀ n, ok_reply (gw n) = true) →
  http_calls (send_like repr accepts gw uid nhost nport ntoken) = 5%nat ∧
  (∃ msg, send_like_loop gw initial = Exited (LoopState 50 msg 5)) ∧
  snd (send_like repr accepts gw uid nhost nport ntoken) = Returned (true, 50, VStr "").
Proof.
  intros Hacc Hok.
  assert (Hloop : send_like_loop gw initial =
    Exited (LoopState 50 (VStr ("已达到单次点赞上限" +:+ pretty max_total +:+ "次")) 5)).
  { rewrite (loop_ok_prefix gw 4) by (try lia; auto).
    rewrite send_like_loop_step. simpl posts.
    rewrite loop_body_ok by apply Hok. reflexivity. }
  split; [|split].
  - rewrite (http_calls_send_like _ Hacc), Hloop. reflexivity.
  - eauto.
  - rewrite (send_like_exited _ _ Hacc Hloop). reflexivity.
Qed.

(** C1. When the first three calls are answered with status [ok] and the
    fourth call raises a transport exception, [send_like] returns success
    with count 30. (That calls are made says that the client was built.) *)
Theorem send_like_partial_success gw :
  accepts (base_url_of repr nhost nport) = true →
  ok_reply (gw 0%nat) = true → ok_reply (gw 1%nat) = true → ok_reply (gw 2%nat) = true →
  gw 3%nat = PostRaises →
  snd (send_like repr accepts gw uid nhost nport ntoken) = Returned (true, 30, VStr "") ∧
  http_calls (send_like repr accepts gw uid nhost nport ntoken) = 4%nat.
Proof.
  intros Hacc H0 H1 H2 H3.
  assert (Hloop : send_like_loop gw initial =
    Exited (LoopState 30 (VStr "网络请求异常") 4)).
  { rewrite (loop_ok_prefix gw 3); [|lia|].
    - rewrite send_like_loop_step. simpl posts. rewrite H3. reflexivity.
    - intros [|[|[|i]]] Hi; auto; lia. }
  split.
  - rewrite (send_like_exited _ _ Hacc Hloop). reflexivity.
  - rewrite (http_calls_send_like _ Hacc), Hloop. reflexivity.
Qed.

(** C6. When the very first call raises a transport exception, [send_like]
    returns failure, count 0 and the message for a network exception. (That a
    first call is made says that the client was built.) *)
Theorem send_like_first_call_raises gw :
  accepts (base_url_of repr nhost nport) = true →
  gw 0%nat = PostRaises →
  snd (send_like repr accepts gw uid nhost nport ntoken) =
    Returned (false, 0, VStr "网络请求异常").
Proof.
  intros Hacc H0.
  assert (Hloop : send_like_loop gw initial = Exited (LoopState 0 (VStr "网络请求异常") 1)).
  { rewrite send_like_loop_step. simpl posts. rewrite H0. reflexivity. }
  rewrite (send_like_exited _ _ Hacc Hloop). reflexivity.
Qed.

(** X16. A reply that is a JSON object whose [status] is not the string [ok]
    ends the loop at once, after [n] successful rounds: no further call is
    made, and the failure message is the reply's [message] field when it is
    present and non-empty, else the fallback with the body text. On the first
    call the outcome is failure with count 0 and that message. *)
Theorem send_like_not_ok_reply gw n text m :
  accepts (base_url_of repr nhost nport) = true →
  (n < 5)%nat → (∀ i, (i < n)%nat → ok_reply (gw i) = true) →
  gw n = JsonReply text (VDict m) → ok_reply (gw n) = false →
  send_like_loop gw initial =
    Exited (LoopState (times_per_request * Z.of_nat n) (stop_message m text) (S n)) ∧
  http_calls (send_like repr accepts gw uid nhost nport ntoken) = S n ∧
  (n = 0%nat →
   snd (send_like repr accepts gw uid nhost nport ntoken) =
     Returned (false, 0, stop_message m text)).
Proof.
  intros Hacc Hn Hok Hgw Hnot.
  assert (Hloop : send_like_loop gw initial =
    Exited (LoopState (times_per_request * Z.of_nat n) (stop_message m text) (S n))).
  { rewrite (loop_ok_prefix gw n) by assumption.
    rewrite send_like_loop_step. simpl posts. rewrite Hgw in *.
    unfold loop_body, stop_message, dict_get. simpl in Hnot.
    destruct (m !! "status") as [[| | | |s| |]|]; simpl; try rewrite Hnot; simpl;
      destruct (m !! "message") as [msg|]; simpl; try destruct (truthy msg); reflexivity. }
  split; [exact Hloop|split].
  - rewrite (http_calls_send_like _ Hacc), Hloop. reflexivity.
  - intros ->. rewrite (send_like_exited _ _ Hacc Hloop). reflexivity.
Qed.

(** C8, as the code has it. When httpx accepts the base URL, [send_like] ends,
    whatever the gateway does, with a result or with the exception of a round,
    after at least one and at most five HTTP calls; when httpx refuses the base
    URL, it ends with that exception before any call. (That the loop ends at
    all is [send_like_loop] being a function: its recursion is well founded on
    the distance of the count to the cap.) *)
Theorem send_like_calls_bounded gw :
  if accepts (base_url_of repr nhost nport)
  then (1 ≤ http_calls (send_like repr accepts gw uid nhost nport ntoken) ≤ 5)%nat ∧
       ((∃ outcome, snd (send_like repr accepts gw uid nhost nport ntoken) = Returned outcome) ∨
        snd (send_like repr accepts gw uid nhost nport ntoken) = Raises AttributeError)
  else send_like repr accepts gw uid nhost nport ntoken = ([], Raises InvalidURL).
Proof.
  destruct (accepts (base_url_of repr nhost nport)) eqn:Hacc;
    [|apply send_like_refused; assumption].
  pose proof (loop_exit_invariant gw 4 0 eq_refl) as (Hp & _ & Hr). cbv zeta in Hp, Hr.
  change (after_ok 0) with initial in Hp, Hr. split.
  - rewrite (http_calls_send_like _ Hacc). lia.
  - unfold send_like. rewrite Hacc.
    destruct (send_like_loop gw initial) as [st|e st] eqn:Hloop; simpl; [eauto|].
    right. f_equal. eapply send_like_loop_raised. eassumption.
Qed.

(** C9. Whatever the gateway does, a triple that [send_like] returns has
    success exactly when its count is positive, a count that is a multiple of
    10 from 0 to 50, and the empty failure message when it has success. The
    only other ways out are the two exceptions: of a JSON document that is
    not an object, and of a base URL that httpx refuses. *)
Theorem send_like_outcome_invariant gw :
  match snd (send_like repr accepts gw uid nhost nport ntoken) with
  | Returned (success, count, message) =>
      (success = true ↔ 0 < count) ∧
      (∃ j, (j ≤ 5)%nat ∧ count = 10 * Z.of_nat j) ∧
      (success = true → message = VStr "")
  | Raises AttributeError =>
      ∃ n text data, (n < 5)%nat ∧ gw n = JsonReply text data ∧ is_dict data = false
  | Raises InvalidURL => accepts (base_url_of repr nhost nport) = false
  end.
Proof.
  destruct (loop_exit_invariant gw 4 0 eq_refl) as (_ & (j & Hj & Hc) & Hr).
  cbv zeta in *. change (after_ok 0) with initial in *.
  unfold send_like.
  destruct (accepts (base_url_of repr nhost nport)) eqn:Hacc; [|reflexivity].
  destruct (send_like_loop gw initial) as [st|e st] eqn:Hloop; simpl in *.
  - destruct (Z.ltb_spec 0 (count st)) as [Hpos|Hneg].
    + split; [tauto|]. split; [|reflexivity]. exists j. auto.
    + split; [split; [discriminate | lia]|]. split; [|discriminate].
      exists 0%nat. split; [lia | reflexivity].
  - apply send_like_loop_raised in Hloop as ->. exact Hr.
Qed.

End SendLike.

(** ** The trigger pattern *)

Lemma append_cons x (a b : string) : String x a +:+ b = String x (a +:+ b).
Proof. reflexivity. Qed.

Lemma append_assoc (a b c : string) : (a +:+ b) +:+ c = a +:+ (b +:+ c).
Proof.
  induction a as [|x a IH]; [reflexivity|].
  rewrite !append_cons, IH. reflexivity.
Qed.

Lemma length_append (a b : string) :
  String.length (a +:+ b) = (String.length a + String.length b)%nat.
Proof.
  induction a as [|x a IH]; [reflexivity|].
  rewrite append_cons. simpl. rewrite IH. reflexivity.
Qed.

Lemma strip_prefix_spec p : ∀ s t, strip_prefix p s = Some t ↔ s = p +:+ t.
Proof.
  induction p as [|a p IH]; intros s t; simpl.
  - split; [intros [= ->] | intros ->]; reflexivity.
  - destruct s as [|b s]; [split; discriminate|].
    destruct (Ascii.eqb_spec a b) as [->|Hab].
    + rewrite IH. split; [intros -> | intros [= ->]]; reflexivity.
    + split; [discriminate | intros [= Hb _]; congruence].
Qed.

Lemma in_words_cat r1 r2 w :
  In w (words (Cat r1 r2)) ↔ ∃ w1 w2, In w1 (words r1) ∧ In w2 (words r2) ∧ w = w1 +:+ w2.
Proof.
  simpl. rewrite in_flat_map. split.
  - intros (w1 & H1 & H). apply in_map_iff in H as (w2 & <- & H2). eauto.
  - intros (w1 & w2 & H1 & H2 & ->). exists w1. split; [assumption|].
    apply in_map_iff. eauto.
Qed.

(** On a pattern without anchors, [run] finds exactly the ways to split off
    one of its words from the front of the text. *)
Lemma run_words r : anchor_free r = true → ∀ pos rest p t,
  In (p, t) (run r pos rest) ↔
  ∃ w, In w (words r) ∧ rest = w +:+ t ∧ p = (pos + String.length w)%nat.
Proof.
  induction r as [| |s|r1 IH1 r2 IH2|r1 IH1 r2 IH2|r IH|r IH]; simpl anchor_free;
    try discriminate; intros Hfree pos rest p t.
  - simpl. destruct (strip_prefix s rest) as [rest'|] eqn:E.
    + apply strip_prefix_spec in E. subst rest. simpl. split.
      * intros [[= <- <-]|[]]. exists s. auto.
      * intros (w & [<-|[]] & Hw & ->). apply String.app_inj in Hw. subst. auto.
    + split; [intros []|]. intros (w & [<-|[]] & Hw & _).
      apply strip_prefix_spec in Hw. congruence.
  - apply andb_true_iff in Hfree as [F1 F2].
    change (run (Cat r1 r2) pos rest)
      with (flat_map (λ '(p, t), run r2 p t) (run r1 pos rest)).
    rewrite in_flat_map. split.
    + intros ([p1 t1] & H1 & H2).
      apply (IH1 F1) in H1 as (w1 & Hw1 & -> & ->).
      apply (IH2 F2) in H2 as (w2 & Hw2 & -> & ->).
      exists (w1 +:+ w2). split; [apply in_words_cat; eauto|].
      rewrite append_assoc, length_append. split; [reflexivity | lia].
    + intros (w & Hw & -> & ->).
      apply in_words_cat in Hw as (w1 & w2 & Hw1 & Hw2 & ->).
      exists ((pos + String.length w1)%nat, w2 +:+ t). split.
      * apply (IH1 F1). exists w1. rewrite append_assoc. auto.
      * apply (IH2 F2). exists w2. rewrite length_append. split; [auto|]. split; [auto | lia].
  - apply andb_true_iff in Hfree as [F1 F2]. simpl.
    rewrite !in_app_iff, (IH1 F1), (IH2 F2). split.
    + intros [(w & H & E)|(w & H & E)]; exists w; rewrite in_app_iff; auto.
    + intros (w & H & E). apply in_app_iff in H as [H|H]; eauto.
  - simpl. rewrite !in_app_iff, (IH Hfree). split.
    + intros [(w & H & E)|[[= <- <-]|[]]].
      * exists w. rewrite in_app_iff. auto.
      * exists "". rewrite in_app_iff. simpl. auto.
    + intros (w & H & -> & ->). apply in_app_iff in H as [H|[<-|[]]]; [eauto|].
      right. left. f_equal. simpl. lia.
  - simpl. apply (IH Hfree).
Qed.

Lemma command_pattern_shape : command_pattern = Cat Bol (Cat pattern_body Eol).
Proof. reflexivity. Qed.

Lemma words_pattern_body w : In w (words pattern_body) ↔ In w trigger_texts.
Proof.
  change (words pattern_body) with
    ["/like"; "#like"; "/赞我"; "/麦麦赞我"; "#赞我"; "#麦麦赞我"; "赞我"; "麦麦赞我"].
  unfold trigger_texts. simpl. tauto.
Qed.

(** The matches of [command_pattern] from the start of a text: one of the
    eight trigger texts, and after it nothing or one final line feed. *)
Lemma run_command_pattern s p t :
  In (p, t) (run command_pattern 0 s) ↔
  (∃ w, In w trigger_texts ∧ s = w +:+ t ∧ p = String.length w) ∧ (t = "" ∨ t = newline).
Proof.
  rewrite command_pattern_shape.
  change (run (Cat Bol (Cat pattern_body Eol)) 0 s)
    with (flat_map (λ '(p, t), run Eol p t) (run pattern_body 0 s) ++ [])%list.
  rewrite app_nil_r, in_flat_map. split.
  - intros ([p1 t1] & H1 & H2).
    apply run_words in H1 as (w & Hw & -> & ->); [|reflexivity].
    apply words_pattern_body in Hw. simpl in H2.
    destruct (String.eqb_spec t1 "") as [->|]; simpl in H2.
    + destruct H2 as [[= <- <-]|[]]. eauto 6.
    + destruct (String.eqb_spec t1 newline) as [->|]; [|destruct H2].
      destruct H2 as [[= <- <-]|[]]. eauto 6.
  - intros ((w & Hw & -> & ->) & Ht). exists (String.length w, t). split.
    + apply run_words; [reflexivity|]. exists w. rewrite words_pattern_body. auto.
    + simpl. destruct Ht as [->| ->]; simpl; auto.
Qed.

Lemma append_empty_r (s : string) : s +:+ "" = s.
Proof. induction s as [|x s IH]; [reflexivity|]. rewrite append_cons, IH. reflexivity. Qed.

(** C4, as the code has it. [command_pattern] matches the eight texts [/like],
    [#like], [/赞我], [#赞我], [赞我], [/麦麦赞我], [#麦麦赞我], [麦麦赞我]
    and not the bare word [like]; no other text matches in full, and
    [re.match] accepts besides them only these texts followed by one line
    feed, which [$] lets pass. *)
Theorem command_pattern_texts s :
  (re_fullmatch command_pattern s = true ↔ In s trigger_texts) ∧
  (re_match command_pattern s = true ↔
   In s trigger_texts ∨ ∃ w, In w trigger_texts ∧ s = w +:+ newline) ∧
  ¬ In "like" trigger_texts.
Proof.
  split; [|split].
  - unfold re_fullmatch. rewrite existsb_exists. split.
    + intros ([p t] & Hin & Ht). apply String.eqb_eq in Ht. subst t.
      apply run_command_pattern in Hin as ((w & Hw & -> & _) & _).
      rewrite append_empty_r. assumption.
    + intros Hs. exists (String.length s, ""). split; [|reflexivity].
      apply run_command_pattern. split; [|auto].
      exists s. rewrite append_empty_r. auto.
  - unfold re_match. split.
    + destruct (run command_pattern 0 s) as [|[p t] l] eqn:E; [discriminate|]. intros _.
      assert (Hin : In (p, t) (run command_pattern 0 s)) by (rewrite E; left; reflexivity).
      apply run_command_pattern in Hin as ((w & Hw & -> & _) & [->| ->]).
      * left. rewrite append_empty_r. assumption.
      * right. eauto.
    + intros Hs.
      assert (Hin : ∃ x, In x (run command_pattern 0 s)).
      { destruct Hs as [Hs|(w & Hw & ->)].
        - exists (String.length s, ""). apply run_command_pattern. split; [|auto].
          exists s. rewrite append_empty_r. auto.
        - exists (String.length w, newline). apply run_command_pattern. split; [|auto].
          exists w. auto. }
      destruct Hin as (x & Hin). destruct (run command_pattern 0 s); [destruct Hin | reflexivity].
  - unfold trigger_texts. simpl. intros H.
    repeat (destruct H as [H|H]; [discriminate H|]). exact H.
Qed.

(** C4, at the bare word: the specification lists [like] among the matching
    texts, and the pattern does not match it. *)
Lemma command_pattern_rejects_bare_like :
  In "like" listed_texts ∧
  re_match command_pattern "like" = false ∧ re_fullmatch command_pattern "like" = false.
Proof. split; [|split]; [simpl; auto | reflexivity | reflexivity]. Qed.

(** The final [$] lets one line feed pass under [re.match]. *)
Example command_pattern_trailing_newline :
  re_match command_pattern ("/like" +:+ newline) = true ∧
  re_fullmatch command_pattern ("/like" +:+ newline) = false.
Proof. split; reflexivity. Qed.

(** ** The command handler *)

Ltac io_unfold := unfold mbind, io_bind, mret, io_ret, emit, send_text.

Lemma sent_texts_segments (segs : list value) :
  sent_texts (flat_map (λ send_data, [EvSendText send_data; EvSleep 300]) segs) = segs.
Proof. induction segs as [|seg segs IH]; simpl; [|rewrite IH]; reflexivity. Qed.

Lemma pauses_segments (segs : list value) :
  pauses (flat_map (λ send_data, [EvSendText send_data; EvSleep 300]) segs) =
  replicate (length segs) 300.
Proof. induction segs as [|seg segs IH]; simpl; [|rewrite IH]; reflexivity. Qed.

Lemma rewrites_segments (segs : list value) :
  rewrites (flat_map (λ send_data, [EvSendText send_data; EvSleep 300]) segs) = [].
Proof. induction segs as [|seg segs IH]; simpl; [|rewrite IH]; reflexivity. Qed.

Lemma in_rewrites events d t s :
  In (EvRewrite d t s) events → In (EvRewrite d t s) (rewrites events).
Proof. intros H. apply filter_In. auto. Qed.

(** The three ways through [reply]. *)
Lemma reply_shape h raw_reply :
  (truthy (get_config h "like_plugin.enable_rewrite_reply" VNone) = false ∧
   reply h raw_reply = ([EvSendText (VStr raw_reply)], Returned "已发送点赞回复")) ∨
  (∃ d status segs,
     let t := chinese_typo_enable h in
     let s := get_config h "enable_splitter.enable_splitter" (VBool false) in
     truthy (get_config h "like_plugin.enable_rewrite_reply" VNone) = true ∧
     rewrite_reply h d t s = (status, segs) ∧
     ((truthy status = true ∧
       reply h raw_reply =
         (EvRewrite d t s :: flat_map (λ send_data, [EvSendText send_data; EvSleep 300]) segs,
          Returned "已发送重写后的点赞回复")) ∨
      (truthy status = false ∧
       reply h raw_reply =
         ([EvRewrite d t s; EvSendText (VStr raw_reply)], Returned "已发送点赞回复")))).
Proof.
  unfold reply. io_unfold.
  destruct (truthy (get_config h "like_plugin.enable_rewrite_reply" VNone));
    [right | left; split; reflexivity].
  match goal with |- context [rewrite_reply h ?d _ _] => exists d end.
  destruct (rewrite_reply h _ _ _) as [status segs]. exists status, segs. cbv zeta.
  split; [reflexivity|]. split; [reflexivity|].
  destruct (truthy status); [left | right]; split; reflexivity.
Qed.

(** The rewrite call that [reply] makes, if it makes one, is its first event
    and its only rewrite call. *)
Lemma reply_rewrite_call h raw_reply d t s :
  In (EvRewrite d t s) (fst (reply h raw_reply)) →
  ∃ rest, fst (reply h raw_reply) = EvRewrite d t s :: rest ∧ rewrites rest = [] ∧
          t = chinese_typo_enable h ∧
          s = get_config h "enable_splitter.enable_splitter" (VBool false).
Proof.
  intros Hin. apply in_rewrites in Hin.
  destruct (reply_shape h raw_reply) as [[_ Hr]|(d' & status & segs & Hshape)].
  - rewrite Hr in Hin. destruct Hin.
  - cbv zeta in Hshape. destruct Hshape as (_ & _ & [[_ Hr]|[_ Hr]]);
      rewrite Hr in *; simpl fst in *; simpl rewrites in Hin.
    + rewrite rewrites_segments in Hin. destruct Hin as [[= <- <- <-]|[]].
      eexists. split; [reflexivity|]. split; [apply rewrites_segments | auto].
    + destruct Hin as [[= <- <- <-]|[]]. eexists. split; [reflexivity|]. auto.
Qed.

Lemma sent_texts_lookups h events : sent_texts (lookups h ++ events) = sent_texts events.
Proof. reflexivity. Qed.

Lemma in_rewrite_lookups h events d t s :
  In (EvRewrite d t s) (lookups h ++ events) → In (EvRewrite d t s) events.
Proof. intros [[=]|[[=]|H]]; exact H. Qed.

Section Execute.

Variable repr_compound : value → string.
Variable accepts : string → bool.
Variable h : host.

#[local] Abbreviation user_id := (message_user_id h).
#[local] Abbreviation person_id := (person_id_of h "qq" (message_user_id h)).
#[local] Abbreviation napcat_host := (get_config h "napcat.host" VNone).
#[local] Abbreviation napcat_port := (get_config h "napcat.port" VNone).
#[local] Abbreviation napcat_token := (get_config h "napcat.token" (VStr "")).

(** [reply] makes no HTTP call and raises nothing. *)
Lemma reply_no_post raw_reply :
  List.filter is_post (fst (reply h raw_reply)) = [] ∧
  ∃ reply_result, snd (reply h raw_reply) = Returned reply_result.
Proof.
  unfold reply. io_unfold.
  destruct (truthy (get_config h "like_plugin.enable_rewrite_reply" VNone)); [|simpl; eauto].
  destruct (rewrite_reply h _ _ _) as [result_status reply_data].
  destruct (truthy result_status); [|simpl; eauto].
  simpl. split; [|eauto].
  induction reply_data as [|seg segs IH]; simpl; auto.
Qed.

(** With rewriting switched off, [reply] sends its text as it is. *)
Lemma reply_direct raw_reply :
  truthy (get_config h "like_plugin.enable_rewrite_reply" VNone) = false →
  reply h raw_reply = ([EvSendText (VStr raw_reply)], Returned "已发送点赞回复").
Proof. unfold reply. intros ->. reflexivity. Qed.

(** C3, as the code has it. When the message has no user identifier, [execute]
    has looked up the person and the person's name by then; it goes on to send
    the failure notice and to report failure, and does nothing else: no
    configuration is read and no HTTP call is made. *)
Theorem execute_missing_user_id :
  truthy user_id = false →
  execute repr_compound accepts h =
    (lookups h ++ [EvSendText (VStr "无法获取用户ID,点赞失败")],
     Returned (false, Some "无法获取用户ID", 1)) ∧
  http_calls (execute repr_compound accepts h) = 0%nat.
Proof.
  intros Hu. unfold execute, http_calls. rewrite Hu. split; reflexivity.
Qed.

(** C7, as the code has it. When the message has a user identifier and the
    configured host or port is missing, [execute] makes no HTTP call, hands the
    configuration-error notice to [reply] and reports failure. What is sent is
    the notice as it is when rewriting is switched off or the rewrite call
    fails; when the rewrite call succeeds, it is the segments of the rewrite
    service instead, and nothing if there are none. *)
Theorem execute_missing_gateway_config :
  truthy user_id = true →
  truthy napcat_host = false ∨ truthy napcat_port = false →
  execute repr_compound accepts h =
    (lookups h ++ fst (reply h "Napcat服务配置不完整，点赞失败"),
     Returned (false, Some "Napcat服务配置不完整", 1)) ∧
  http_calls (execute repr_compound accepts h) = 0%nat ∧
  (truthy (get_config h "like_plugin.enable_rewrite_reply" VNone) = false →
   fst (execute repr_compound accepts h) =
     lookups h ++ [EvSendText (VStr "Napcat服务配置不完整，点赞失败")]) ∧
  (∀ d t s, In (EvRewrite d t s) (fst (execute repr_compound accepts h)) →
     truthy (fst (rewrite_reply h d t s)) = false →
     sent_texts (fst (execute repr_compound accepts h)) =
       [VStr "Napcat服务配置不完整，点赞失败"]) ∧
  (∀ d t s status segs, In (EvRewrite d t s) (fst (execute repr_compound accepts h)) →
     rewrite_reply h d t s = (status, segs) → truthy status = true →
     sent_texts (fst (execute repr_compound accepts h)) = segs).
Proof.
  intros Hu Hcfg.
  assert (Hgate : negb (truthy napcat_port) || negb (truthy napcat_host) = true).
  { destruct Hcfg as [-> | ->]; [apply orb_true_r | reflexivity]. }
  destruct (reply_no_post "Napcat服务配置不完整，点赞失败") as (Hposts & res & Hres).
  assert (Hexec : execute repr_compound accepts h =
    (lookups h ++ fst (reply h "Napcat服务配置不完整，点赞失败"),
     Returned (false, Some "Napcat服务配置不完整", 1))).
  { unfold execute. rewrite Hu, Hgate. io_unfold.
    destruct (reply h _) as [tr r]. simpl in Hres. subst r. simpl.
    rewrite app_nil_r. reflexivity. }
  split; [exact Hexec|]. split; [|split; [|split]].
  - unfold http_calls. rewrite Hexec. simpl. rewrite Hposts. reflexivity.
  - intros Hoff. rewrite Hexec, (reply_direct _ Hoff). reflexivity.
  - rewrite Hexec. cbn [fst]. intros d t s Hin Hst. apply in_rewrite_lookups in Hin.
    rewrite sent_texts_lookups.
    destruct (reply_rewrite_call h _ d t s Hin) as (rest & Hfst & _ & -> & ->).
    destruct (reply_shape h "Napcat服务配置不完整，点赞失败")
      as [[_ Hr]|(d' & status' & segs' & Hshape)].
    + rewrite Hr in Hfst. discriminate.
    + cbv zeta in Hshape. destruct Hshape as (_ & Hrw & [[Hst' Hr]|[_ Hr]]);
        rewrite Hr in *; [|reflexivity].
      injection Hfst as <- _. rewrite Hrw in Hst. simpl in Hst. congruence.
  - rewrite Hexec. cbn [fst]. intros d t s status segs Hin Hrw Hst.
    apply in_rewrite_lookups in Hin. rewrite sent_texts_lookups.
    destruct (reply_rewrite_call h _ d t s Hin) as (rest & Hfst & _ & -> & ->).
    destruct (reply_shape h "Napcat服务配置不完整，点赞失败")
      as [[_ Hr]|(d' & status' & segs' & Hshape)].
    + rewrite Hr in Hfst. discriminate.
    + cbv zeta in Hshape. destruct Hshape as (_ & Hrw' & [[_ Hr]|[Hst' Hr]]);
        rewrite Hr in *; injection Hfst as <- _;
        rewrite Hrw in Hrw'; injection Hrw' as <- <-; [|congruence].
      simpl. apply sent_texts_segments.
Qed.

(** C10. Every triple that [execute] returns has 1 as its third component;
    [execute] returns no triple only when [send_like] raised. *)
Theorem execute_code_is_1 :
  match snd (execute repr_compound accepts h) with
  | Returned (_, _, code) => code = 1
  | Raises e =>
      truthy user_id = true ∧
      snd (send_like repr_compound accepts (napcat h) user_id napcat_host napcat_port napcat_token)
        = Raises e
  end.
Proof.
  unfold execute.
  destruct (truthy user_id) eqn:Hu; [|reflexivity]. simpl negb. cbv iota.
  destruct (negb (truthy napcat_port) || negb (truthy napcat_host)).
  - io_unfold. destruct (reply_no_post "Napcat服务配置不完整，点赞失败") as (_ & res & Hres).
    destruct (reply h _) as [tr r]. simpl in Hres. subst r. reflexivity.
  - io_unfold.
    destruct (send_like _ _ _ _ _ _ _) as [tr [[[success count] failed_message]|e]];
      [|simpl; auto].
    match goal with
    | |- context [reply h ?s] =>
        destruct (reply_no_post s) as (_ & res & Hres);
        destruct (reply h s) as [tr' r]
    end.
    simpl in Hres. subst r. reflexivity.
Qed.

End Execute.

(** * The properties at concrete inputs *)

#[local] Abbreviation send_like_to gw :=
  (send_like repr_opaque accepts_numeric_port gw
     (VStr "10001") (VStr "127.0.0.1") (VInt 9999) (VStr "")).

#[local] Abbreviation execute_at h := (execute repr_opaque accepts_numeric_port h).

Lemma send_like_all_ok_witness :
  http_calls (send_like_to gateway_all_ok) = 5%nat ∧
  (∃ msg, send_like_loop gateway_all_ok initial = Exited (LoopState 50 msg 5)) ∧
  snd (send_like_to gateway_all_ok) = Returned (true, 50, VStr "").
Proof. apply send_like_all_ok; [reflexivity | intros n; reflexivity]. Defined.

Lemma send_like_partial_success_witness :
  snd (send_like_to gateway_three_ok) = Returned (true, 30, VStr "") ∧
  http_calls (send_like_to gateway_three_ok) = 4%nat.
Proof. apply send_like_partial_success; reflexivity. Defined.

Lemma send_like_first_call_raises_witness :
  snd (send_like_to gateway_down) = Returned (false, 0, VStr "网络请求异常").
Proof. apply send_like_first_call_raises; reflexivity. Defined.

Lemma send_like_not_ok_reply_witness :
  send_like_loop gateway_refusing initial = Exited (LoopState 0 (VStr "limit") 1) ∧
  http_calls (send_like_to gateway_refusing) = 1%nat ∧
  (0%nat = 0%nat → snd (send_like_to gateway_refusing) = Returned (false, 0, VStr "limit")).
Proof.
  apply (send_like_not_ok_reply repr_opaque accepts_numeric_port (VStr "10001")
           (VStr "127.0.0.1") (VInt 9999) (VStr "") gateway_refusing 0 failed_body
           failed_document).
  - reflexivity.
  - lia.
  - intros i Hi. lia.
  - reflexivity.
  - reflexivity.
Defined.

(** C5, where the code departs from it. The body [[]] parses as JSON and has
    no status [ok]; in place of stopping with failure, count 0 and the fallback
    message, [send_like] lets the AttributeError of [data_json.get] escape,
    after its one call. *)
Theorem send_like_array_reply_raises :
  gateway_array 0%nat = JsonReply "[]" (VList []) ∧
  ok_reply (gateway_array 0%nat) = false ∧
  send_like_to gateway_array =
    ([EvPost "http://127.0.0.1:9999" "/send_like"
        (VDict {[ "user_id" := VStr "10001"; "times" := VInt 10 ]})
        {[ "Content-Type" := VStr "application/json" ]}],
     Raises AttributeError).
Proof. repeat split; reflexivity. Qed.

(** C8, at a port that is not a number: httpx refuses the base URL when the
    client is built, and [send_like] ends without any HTTP call, whatever the
    gateway would have answered. *)
Lemma send_like_refused_url_makes_no_call :
  base_url_of repr_opaque (VStr "127.0.0.1") (VStr "abc") = "http://127.0.0.1:abc" ∧
  accepts_numeric_port "http://127.0.0.1:abc" = false ∧
  send_like repr_opaque accepts_numeric_port gateway_all_ok
    (VStr "10001") (VStr "127.0.0.1") (VStr "abc") (VStr "") = ([], Raises InvalidURL) ∧
  http_calls (send_like repr_opaque accepts_numeric_port gateway_all_ok
                (VStr "10001") (VStr "127.0.0.1") (VStr "abc") (VStr "")) = 0%nat.
Proof. repeat split; reflexivity. Qed.

Lemma execute_missing_user_id_witness :
  execute_at host_without_user =
    (lookups host_without_user ++ [EvSendText (VStr "无法获取用户ID,点赞失败")],
     Returned (false, Some "无法获取用户ID", 1)) ∧
  http_calls (execute_at host_without_user) = 0%nat.
Proof. apply execute_missing_user_id. reflexivity. Defined.

(** C3, at a message without user identifier: the person and the person's
    name have been looked up when the handler stops. *)
Lemma execute_missing_user_id_looks_up :
  truthy (message_user_id host_without_user) = false ∧
  List.filter is_person_lookup (fst (execute_at host_without_user)) =
    [EvGetPersonId "qq" VNone; EvGetPersonValue (VStr "qq_person") "person_name"].
Proof. split; reflexivity. Qed.

Lemma execute_missing_gateway_config_witness :
  execute_at host_without_gateway =
    (lookups host_without_gateway ++ [EvSendText (VStr "Napcat服务配置不完整，点赞失败")],
     Returned (false, Some "Napcat服务配置不完整", 1)) ∧
  http_calls (execute_at host_without_gateway) = 0%nat ∧
  sent_texts (fst (execute_at (host_rewriting_without_gateway (VBool true) [VStr "a"; VStr "b"])))
    = [VStr "a"; VStr "b"] ∧
  sent_texts (fst (execute_at (host_rewriting_without_gateway (VBool false) [VStr "a"])))
    = [VStr "Napcat服务配置不完整，点赞失败"].
Proof.
  destruct (execute_missing_gateway_config repr_opaque accepts_numeric_port
              host_without_gateway eq_refl (or_introl eq_refl)) as (Hex & Hcalls & _).
  destruct (execute_missing_gateway_config repr_opaque accepts_numeric_port
              (host_rewriting_without_gateway (VBool true) [VStr "a"; VStr "b"])
              eq_refl (or_introl eq_refl)) as (_ & _ & _ & _ & Hsegs).
  destruct (execute_missing_gateway_config repr_opaque accepts_numeric_port
              (host_rewriting_without_gateway (VBool false) [VStr "a"])
              eq_refl (or_introl eq_refl)) as (_ & _ & _ & Hfail & _).
  split; [exact Hex|]. split; [exact Hcalls|]. split.
  - eapply Hsegs; [right; right; left; reflexivity | reflexivity | reflexivity].
  - eapply Hfail; [right; right; left; reflexivity | reflexivity].
Defined.

(** C7, at a bot that rewrites its replies: the user is there, the host is
    not configured, the rewrite call succeeds without any segment, and no
    notice is sent at all. *)
Lemma execute_config_notice_not_sent :
  truthy (message_user_id (host_rewriting_without_gateway (VBool true) [])) = true ∧
  truthy (get_config (host_rewriting_without_gateway (VBool true) []) "napcat.host" VNone)
    = false ∧
  sent_texts (fst (execute_at (host_rewriting_without_gateway (VBool true) []))) = [] ∧
  snd (execute_at (host_rewriting_without_gateway (VBool true) [])) =
    Returned (false, Some "Napcat服务配置不完整", 1).
Proof. repeat split; reflexivity. Qed.

(** The guard on the user identifier comes first: with no identifier and no
    host configured, the notice is the one for the identifier. *)
Example execute_missing_config_and_user :
  truthy (get_config host_without_user_and_gateway "napcat.host" VNone) = false ∧
  execute_at host_without_user_and_gateway =
    ([EvGetPersonId "qq" (VStr ""); EvGetPersonValue (VStr "qq_person") "person_name";
      EvSendText (VStr "无法获取用户ID,点赞失败")],
     Returned (false, Some "无法获取用户ID", 1)).
Proof. split; reflexivity. Qed.

(** The other ways out of the loop. *)
Example send_like_unreadable_body :
  snd (send_like_to (λ _, TextRaises)) = Returned (false, 0, VStr "读取响应失败").
Proof. reflexivity. Qed.

Example send_like_unparsable_body :
  snd (send_like_to (λ _, JsonRaises "<html>")) = Returned (false, 0, VStr "响应解析失败").
Proof. reflexivity. Qed.

(** A [message] that is present but falsy gives way to the fallback. *)
Example send_like_falsy_message :
  snd (send_like_to (λ _, JsonReply "busy" (VDict {[ "message" := VInt 0 ]}))) =
  Returned (false, 0, VStr "未知错误，响应内容: busy").
Proof. reflexivity. Qed.

(** A token, when configured, travels in the [Authorization] header. *)
Example send_like_with_token :
  fst (send_like repr_opaque accepts_numeric_port gateway_down
         (VStr "10001") (VStr "localhost") (VInt 3000) (VStr "secret")) =
  [EvPost "http://localhost:3000" "/send_like"
     (VDict {[ "user_id" := VStr "10001"; "times" := VInt 10 ]})
     {[ "Content-Type" := VStr "application/json"; "Authorization" := VStr "secret" ]}].
Proof. reflexivity. Qed.

(** A host that carries a port of its own makes a base URL with two ports. *)
Example send_like_host_with_port :
  send_like repr_opaque accepts_numeric_port gateway_all_ok
    (VStr "10001") (VStr "127.0.0.1:9999") (VInt 9999) (VStr "") = ([], Raises InvalidURL).
Proof. reflexivity. Qed.

(** The four ways [execute] returns, and the two ways it does not. *)
Example execute_success :
  snd (execute_at (host_ready gateway_all_ok)) =
  Returned (true, Some "已成功为 Mai 点赞 50 次 已发送点赞回复", 1).
Proof. reflexivity. Qed.

Example execute_failure :
  snd (execute_at (host_ready gateway_refusing)) =
  Returned (false, Some "为 Mai 点赞失败: limit 已发送点赞回复", 1).
Proof. reflexivity. Qed.

Example execute_raises :
  execute_at (host_ready gateway_array) =
  (lookups (host_ready gateway_array) ++
     [EvPost "http://127.0.0.1:9999" "/send_like"
        (VDict {[ "user_id" := VStr "10001"; "times" := VInt 10 ]})
        {[ "Content-Type" := VStr "application/json" ]}],
   Raises AttributeError).
Proof. reflexivity. Qed.

Example execute_refused_url :
  execute_at host_bad_port = (lookups host_bad_port, Raises InvalidURL).
Proof. reflexivity. Qed.

(** * Further properties of the loop *)

Lemma loop_body_failure r st :
  ok_reply r = false → not_an_object r = false →
  ∃ msg, loop_body r st = Break (LoopState (count st) msg (S (posts st))) ∧
         truthy msg = true.
Proof.
  destruct r as [| | t | t data]; simpl; intros Hok Hobj; eauto.
  destruct data as [| | | | | |m]; try discriminate. unfold dict_get.
  assert (Hne : ne_str (default VNone (m !! "status")) "ok" = true).
  { destruct (m !! "status") as [[| | | |s| |]|]; simpl; try reflexivity.
    rewrite Hok. reflexivity. }
  rewrite Hne. destruct (truthy (default VNone (m !! "message"))) eqn:Hmsg; simpl; eauto.
Qed.

Lemma loop_body_not_an_object r st :
  not_an_object r = true →
  loop_body r st =
  Raise AttributeError (LoopState (count st) (failed_message st) (S (posts st))).
Proof.
  destruct r as [| | t | t data]; try discriminate.
  destruct data; try discriminate; reflexivity.
Qed.

(** The count when the loop is left: every post but the last was a success,
    and the last one too exactly when it reached the cap. *)
Lemma loop_exit_count gw d : ∀ k, (k + d = 4)%nat →
  let x := send_like_loop gw (after_ok k) in
  (k < posts (exit_state x))%nat ∧
  (count (exit_state x) = times_per_request * (Z.of_nat (posts (exit_state x)) - 1) ∨
   x = Exited (exit_state x) ∧ count (exit_state x) = max_total ∧
   posts (exit_state x) = 5%nat).
Proof.
  induction d as [|d IH]; intros k Hk; cbv zeta;
    rewrite send_like_loop_step; simpl posts;
    pose proof (loop_body_cases (gw k) (after_ok k)) as Hc;
    destruct (loop_body (gw k) (after_ok k)) as [st'|st'|e st']; simpl in *.
  - destruct Hc as (_ & Hlt & _). unfold times_per_request, max_total in Hlt. lia.
  - destruct Hc as (Hp & [Hc|[Hc Hcap]]); (split; [lia|]).
    + left. rewrite Hc, Hp. lia.
    + right. unfold times_per_request, max_total in *. repeat split; lia.
  - destruct Hc as (Hp & Hc & _). split; [lia|]. left. rewrite Hc, Hp. lia.
  - destruct Hc as (_ & _ & ->). rewrite after_ok_S.
    destruct (IH (S k)) as (Hp & Hj); [lia|]. split; [lia | exact Hj].
  - destruct Hc as (Hp & [Hc|[Hc Hcap]]); (split; [lia|]).
    + left. rewrite Hc, Hp. lia.
    + unfold times_per_request, max_total in *. lia.
  - destruct Hc as (Hp & Hc & _). split; [lia|]. left. rewrite Hc, Hp. lia.
Qed.

(** Once the first reply was ok, the loop is not left with an empty count. *)
Lemma loop_after_first_ok gw :
  ok_reply (gw 0%nat) = true →
  0 < count (exit_state (send_like_loop gw initial)).
Proof.
  intros Hok. rewrite (loop_ok_prefix gw 1); [|lia|].
  - destruct (loop_exit_count gw 3 1 eq_refl) as (Hp & Hc). cbv zeta in *.
    unfold times_per_request, max_total in Hc. lia.
  - intros [|i] Hi; [assumption | lia].
Qed.

(** When the first reply is not ok, the loop is left in its first round. *)
Lemma loop_first_not_ok gw :
  ok_reply (gw 0%nat) = false →
  (not_an_object (gw 0%nat) = true ∧ ∃ st, send_like_loop gw initial = Raised AttributeError st) ∨
  (∃ msg, send_like_loop gw initial = Exited (LoopState 0 msg 1) ∧ truthy msg = true).
Proof.
  intros Hok. rewrite send_like_loop_step. simpl posts.
  destruct (not_an_object (gw 0%nat)) eqn:Hobj.
  - left. rewrite loop_body_not_an_object by assumption. eauto.
  - right. destruct (loop_body_failure (gw 0%nat) initial Hok Hobj) as (msg & -> & Hmsg). eauto.
Qed.

Section SendLikeMore.

Variable repr : value → string.
Variable accepts : string → bool.
Variables uid nhost nport ntoken : value.

(** X1. A failure that follows successes is not reported: after [n] ok
    replies, 1 <= n <= 4, a failure of any of the four kinds (transport,
    unreadable body, unparsable body, status other than ok) ends [send_like]
    with success, count 10 n and the empty message, after n + 1 calls. (That
    calls are made says that the client was built.) *)
Theorem send_like_failure_after_success gw n :
  accepts (base_url_of repr nhost nport) = true →
  (1 ≤ n < 5)%nat → (∀ i, (i < n)%nat → ok_reply (gw i) = true) →
  ok_reply (gw n) = false → not_an_object (gw n) = false →
  snd (send_like repr accepts gw uid nhost nport ntoken) = Returned (true, 10 * Z.of_nat n, VStr "") ∧
  http_calls (send_like repr accepts gw uid nhost nport ntoken) = S n.
Proof.
  intros Hacc Hn Hok Hfail Hobj.
  destruct (loop_body_failure (gw n) (after_ok n) Hfail Hobj) as (msg & Hbody & _).
  assert (Hloop : send_like_loop gw initial =
            Exited (LoopState (times_per_request * Z.of_nat n) msg (S n))).
  { rewrite (loop_ok_prefix gw n) by (try lia; assumption).
    rewrite send_like_loop_step. simpl posts. rewrite Hbody. reflexivity. }
  split.
  - rewrite (send_like_exited _ _ _ _ _ _ _ _ Hacc Hloop). simpl count.
    destruct (Z.ltb_spec 0 (times_per_request * Z.of_nat n)) as [_|H]; [reflexivity|].
    unfold times_per_request in H. lia.
  - rewrite http_calls_send_like by assumption. rewrite Hloop. reflexivity.
Qed.

(** X2. A JSON reply that is not an object makes [send_like] raise
    AttributeError, in whatever round it comes: the successes counted before
    it are not returned. (That a reply arrives says that the client was
    built.) *)
Theorem send_like_not_an_object gw n :
  accepts (base_url_of repr nhost nport) = true →
  (n < 5)%nat → (∀ i, (i < n)%nat → ok_reply (gw i) = true) →
  not_an_object (gw n) = true →
  snd (send_like repr accepts gw uid nhost nport ntoken) = Raises AttributeError ∧
  http_calls (send_like repr accepts gw uid nhost nport ntoken) = S n.
Proof.
  intros Hacc Hn Hok Hobj.
  assert (Hloop : send_like_loop gw initial =
            Raised AttributeError (LoopState (times_per_request * Z.of_nat n) (VStr "") (S n))).
  { rewrite (loop_ok_prefix gw n) by assumption.
    rewrite send_like_loop_step. simpl posts.
    rewrite loop_body_not_an_object by assumption. reflexivity. }
  split.
  - unfold send_like. rewrite Hacc, Hloop. reflexivity.
  - rewrite http_calls_send_like by assumption. rewrite Hloop. reflexivity.
Qed.

(** X3. A body that cannot be read, or cannot be parsed, in answer to the
    first call ends [send_like] with failure, count 0 and the message of that
    kind of failure. (That a reply arrives says that the client was built.) *)
Theorem send_like_protocol_failure gw :
  accepts (base_url_of repr nhost nport) = true →
  match gw 0%nat with
  | TextRaises =>
      snd (send_like repr accepts gw uid nhost nport ntoken) = Returned (false, 0, VStr "读取响应失败")
  | JsonRaises _ =>
      snd (send_like repr accepts gw uid nhost nport ntoken) = Returned (false, 0, VStr "响应解析失败")
  | _ => True
  end.
Proof.
  intros Hacc. unfold send_like. rewrite Hacc, send_like_loop_step. simpl posts.
  destruct (gw 0%nat); try exact I; reflexivity.
Qed.

(** X4. The returned count accounts for every call but the last one, and for
    the last one as well only when it reached the cap: it is 10 times the
    number of calls less one, or else 50 after 5 calls. *)
Theorem send_like_count_of_calls gw :
  match snd (send_like repr accepts gw uid nhost nport ntoken) with
  | Returned (_, count, _) =>
      count = 10 * (Z.of_nat (http_calls (send_like repr accepts gw uid nhost nport ntoken)) - 1) ∨
      count = 50 ∧ http_calls (send_like repr accepts gw uid nhost nport ntoken) = 5%nat
  | Raises _ => True
  end.
Proof.
  destruct (accepts (base_url_of repr nhost nport)) eqn:Hacc;
    [|rewrite send_like_refused by assumption; exact I].
  rewrite http_calls_send_like by assumption.
  destruct (loop_exit_count gw 4 0 eq_refl) as (Hp & Hc). cbv zeta in *.
  change (after_ok 0) with initial in *. unfold send_like. rewrite Hacc.
  destruct (send_like_loop gw initial) as [st|e st]; simpl in *; [|exact I].
  unfold times_per_request, max_total in Hc.
  destruct (Z.ltb_spec 0 (count st)); [tauto|]. left. lia.
Qed.

(** X5. A failure is never returned without a reason: when [send_like]
    returns failure, its message is a non-empty (truthy) value. *)
Theorem send_like_failure_has_message gw total message :
  snd (send_like repr accepts gw uid nhost nport ntoken) = Returned (false, total, message) →
  truthy message = true.
Proof.
  unfold send_like. intros H.
  destruct (accepts (base_url_of repr nhost nport)); [|discriminate].
  destruct (ok_reply (gw 0%nat)) eqn:Hok.
  - pose proof (loop_after_first_ok gw Hok) as Hpos.
    destruct (send_like_loop gw initial) as [st|e st]; simpl in *; [|discriminate].
    destruct (Z.ltb_spec 0 (count st)); [discriminate | lia].
  - destruct (loop_first_not_ok gw Hok) as [(_ & st & Hloop)|(msg & Hloop & Hmsg)];
      rewrite Hloop in H; simpl in H; [discriminate|].
    injection H as _ <-. exact Hmsg.
Qed.

(** X6. Whether [send_like] returns success is decided by the first reply
    alone: a returned triple has success exactly when the first reply is a
    JSON object with status ok. *)
Theorem send_like_success_iff_first_ok gw success total message :
  snd (send_like repr accepts gw uid nhost nport ntoken) = Returned (success, total, message) →
  (success = true ↔ ok_reply (gw 0%nat) = true).
Proof.
  unfold send_like. intros H.
  destruct (accepts (base_url_of repr nhost nport)); [|discriminate].
  destruct (ok_reply (gw 0%nat)) eqn:Hok.
  - pose proof (loop_after_first_ok gw Hok) as Hpos.
    destruct (send_like_loop gw initial) as [st|e st]; simpl in *; [|discriminate].
    destruct (Z.ltb_spec 0 (count st)); [|lia].
    injection H as <- _ _. tauto.
  - destruct (loop_first_not_ok gw Hok) as [(_ & st & Hloop)|(msg & Hloop & _)];
      rewrite Hloop in H; simpl in H; [discriminate|].
    injection H as <- _ _. split; discriminate.
Qed.

(** X7. All that [send_like] does to the outside is post one and the same
    request: to the path /send_like of the configured host and port, with the
    user and 10 times in the body, the JSON content type, and an Authorization
    header exactly when a token is configured, which is then the token. *)
Theorem send_like_requests gw e :
  In e (fst (send_like repr accepts gw uid nhost nport ntoken)) →
  ∃ headers : gmap string value,
    e = EvPost ("http://" +:+ py_str repr nhost +:+ ":" +:+ py_str repr nport) "/send_like"
          (VDict {[ "user_id" := uid; "times" := VInt 10 ]}) headers ∧
    headers !! "Content-Type" = Some (VStr "application/json") ∧
    headers !! "Authorization" = (if truthy ntoken then Some ntoken else None) ∧
    ∀ name, name ≠ "Content-Type" → name ≠ "Authorization" → headers !! name = None.
Proof.
  unfold send_like. intros H.
  assert (He : e = EvPost ("http://" +:+ py_str repr nhost +:+ ":" +:+ py_str repr nport)
                 "/send_like" (VDict {[ "user_id" := uid; "times" := VInt 10 ]})
                 (if truthy ntoken
                  then <[ "Authorization" := ntoken ]> {[ "Content-Type" := VStr "application/json" ]}
                  else {[ "Content-Type" := VStr "application/json" ]})).
  { destruct (accepts (base_url_of repr nhost nport)); [|destruct H].
    destruct (send_like_loop gw initial) as [st|x st]; simpl in H;
      apply list_elem_of_In, elem_of_replicate in H as [-> _]; reflexivity. }
  eexists. split; [exact He|]. destruct (truthy ntoken).
  - split; [reflexivity|]. split; [apply lookup_insert_eq|].
    intros name H1 H2. rewrite lookup_insert_ne by congruence.
    apply lookup_singleton_ne. congruence.
  - split; [reflexivity|]. split; [reflexivity|].
    intros name H1 _. apply lookup_singleton_ne. congruence.
Qed.

End SendLikeMore.

(** * Further properties of the command handler *)

(** X8. When the rewrite call of [reply] succeeds, the segments it produced
    are what is sent, all of them and in their order, each followed by a pause
    of 300 ms; the raw text is not sent. *)
Theorem reply_rewritten h raw_reply d t s status segs :
  In (EvRewrite d t s) (fst (reply h raw_reply)) →
  rewrite_reply h d t s = (status, segs) → truthy status = true →
  fst (reply h raw_reply) =
    EvRewrite d t s :: flat_map (λ send_data, [EvSendText send_data; EvSleep 300]) segs ∧
  sent_texts (fst (reply h raw_reply)) = segs ∧
  snd (reply h raw_reply) = Returned "已发送重写后的点赞回复".
Proof.
  intros Hin Hrw Hst.
  destruct (reply_rewrite_call h raw_reply d t s Hin) as (rest & Hfst & _ & -> & ->).
  destruct (reply_shape h raw_reply) as [[_ Hr]|(d' & status' & segs' & Hshape)].
  - rewrite Hr in Hfst. discriminate.
  - cbv zeta in Hshape. destruct Hshape as (_ & Hrw' & [[_ Hr]|[Hst' Hr]]);
      rewrite Hr in Hfst; injection Hfst as <- _;
      rewrite Hrw in Hrw'; injection Hrw' as <- <-; [|congruence].
    rewrite Hr. simpl. rewrite sent_texts_segments. auto.
Qed.

(** X9. When rewriting is switched off, or the rewrite call of [reply] fails,
    exactly one text is sent, the raw one, and no pause is taken. *)
Theorem reply_fallback h raw_reply :
  truthy (get_config h "like_plugin.enable_rewrite_reply" VNone) = false ∨
  (∃ d t s, In (EvRewrite d t s) (fst (reply h raw_reply)) ∧
            truthy (fst (rewrite_reply h d t s)) = false) →
  sent_texts (fst (reply h raw_reply)) = [VStr raw_reply] ∧
  pauses (fst (reply h raw_reply)) = [] ∧
  snd (reply h raw_reply) = Returned "已发送点赞回复".
Proof.
  intros Hcase.
  destruct (reply_shape h raw_reply) as [[Hoff Hr]|(d' & status' & segs' & Hshape)].
  - rewrite Hr. auto.
  - cbv zeta in Hshape. destruct Hshape as (Hon & Hrw' & Hways).
    destruct Hcase as [Hoff|(d & t & s & Hin & Hst)]; [congruence|].
    destruct (reply_rewrite_call h raw_reply d t s Hin) as (rest & Hfst & _ & -> & ->).
    destruct Hways as [[Hst' Hr]|[_ Hr]]; rewrite Hr in *; [|auto].
    injection Hfst as <- _. rewrite Hrw' in Hst. simpl in Hst. congruence.
Qed.

(** X10. [reply] sends nothing at all in one case only: the rewrite call
    succeeded without any segment. *)
Theorem reply_silent_iff h raw_reply :
  sent_texts (fst (reply h raw_reply)) = [] ↔
  ∃ d t s status, In (EvRewrite d t s) (fst (reply h raw_reply)) ∧
                  rewrite_reply h d t s = (status, []) ∧ truthy status = true.
Proof.
  destruct (reply_shape h raw_reply) as [[Hoff Hr]|(d' & status' & segs' & Hshape)].
  - rewrite Hr. split; [discriminate|]. intros (d & t & s & status & [[=]|[]] & _).
  - cbv zeta in Hshape. destruct Hshape as (Hon & Hrw' & [[Hst' Hr]|[Hst' Hr]]);
      rewrite Hr; simpl fst.
    + split.
      * simpl. rewrite sent_texts_segments. intros ->.
        eexists _, _, _, status'. split; [left; reflexivity | auto].
      * intros (d & t & s & status & Hin & Hrw & _).
        apply in_rewrites in Hin. simpl in Hin. rewrite rewrites_segments in Hin.
        destruct Hin as [[= <- <- <-]|[]]. rewrite Hrw in Hrw'. injection Hrw' as _ <-.
        reflexivity.
    + split; [discriminate|]. intros (d & t & s & status & Hin & Hrw & Hst).
      destruct Hin as [[= <- <- <-]|[[=]|[]]]. rewrite Hrw in Hrw'. congruence.
Qed.

Lemma not_declared_splitter : ¬ declared "enable_splitter.enable_splitter".
Proof.
  intros (section & fields & field & spec & Hs & _ & Hkey). unfold config_schema in Hs.
  apply lookup_insert_Some in Hs as [[<- _]|[_ Hs]]; [discriminate Hkey|].
  apply lookup_singleton_Some in Hs as [<- _]. discriminate Hkey.
Qed.

(** X15. The key under which [reply] reads the splitter switch is not a key of
    the schema (which has it under like_plugin): with a configuration that
    holds only keys of the schema, the rewrite service is always called with
    the splitter off. *)
Theorem reply_splitter_off h raw_reply d t s :
  (∀ key v, plugin_config h !! key = Some v → declared key) →
  In (EvRewrite d t s) (fst (reply h raw_reply)) →
  s = VBool false.
Proof.
  intros Hkeys Hin.
  destruct (reply_rewrite_call h raw_reply d t s Hin) as (_ & _ & _ & _ & ->).
  unfold get_config.
  destruct (plugin_config h !! "enable_splitter.enable_splitter") as [v|] eqn:E; [|reflexivity].
  destruct not_declared_splitter. eauto.
Qed.

Section ExecuteMore.

Variable repr : value → string.
Variable accepts : string → bool.
Variable h : host.

#[local] Abbreviation the_user := (message_user_id h).
#[local] Abbreviation the_host := (get_config h "napcat.host" VNone).
#[local] Abbreviation the_port := (get_config h "napcat.port" VNone).
#[local] Abbreviation the_token := (get_config h "napcat.token" (VStr "")).

(** Between one and five HTTP calls once the client is built, none before. *)
Lemma send_like_calls gw uid nhost nport ntoken :
  if accepts (base_url_of repr nhost nport)
  then (1 ≤ http_calls (send_like repr accepts gw uid nhost nport ntoken) ≤ 5)%nat
  else http_calls (send_like repr accepts gw uid nhost nport ntoken) = 0%nat.
Proof.
  destruct (accepts (base_url_of repr nhost nport)) eqn:Hacc;
    [|rewrite send_like_refused by assumption; reflexivity].
  rewrite http_calls_send_like by assumption.
  destruct (loop_exit_invariant gw 4 0 eq_refl) as (Hp & _). cbv zeta in Hp.
  change (after_ok 0) with initial in Hp. lia.
Qed.

(** A guard stopped [execute]: no HTTP call, failure reported. *)
Lemma execute_stopped :
  truthy the_user = false ∨ truthy the_host = false ∨ truthy the_port = false →
  http_calls (execute repr accepts h) = 0%nat ∧
  ∃ message, snd (execute repr accepts h) = Returned (false, message, 1).
Proof.
  intros Hguard. unfold execute, http_calls.
  destruct (truthy the_user) eqn:Hu; [|split; [reflexivity | eexists; reflexivity]].
  assert (Hgate : negb (truthy the_port) || negb (truthy the_host) = true).
  { destruct Hguard as [?|[-> | ->]]; [discriminate | apply orb_true_r | reflexivity]. }
  simpl negb. cbv iota. rewrite Hgate. io_unfold.
  destruct (reply_no_post h "Napcat服务配置不完整，点赞失败") as (Hposts & res & Hres).
  destruct (reply h _) as [tr r]. simpl in *. subst r. simpl.
  rewrite app_nil_r, Hposts. split; [reflexivity | eexists; reflexivity].
Qed.

(** Both guards passed: [execute] is the lookups, then [send_like], then, if
    that returned, [reply] with a text made from its result. *)
Lemma execute_passed :
  truthy the_user = true → truthy the_host = true → truthy the_port = true →
  let requester := send_like repr accepts (napcat h) the_user the_host the_port the_token in
  match snd requester with
  | Raises e => execute repr accepts h = (lookups h ++ fst requester, Raises e)
  | Returned (success, total, message) =>
      ∃ raw_reply reply_result,
        snd (reply h raw_reply) = Returned reply_result ∧
        execute repr accepts h =
          (lookups h ++ fst requester ++ fst (reply h raw_reply),
           Returned (success, Some (raw_reply +:+ " " +:+ reply_result), 1))
  end.
Proof.
  intros Hu Hh Hp. cbv zeta. unfold execute. rewrite Hu, Hh, Hp. simpl negb. simpl orb.
  cbv iota. io_unfold.
  destruct (send_like _ _ _ _ _ _ _) as [tr [[[success total] message]|e]]; simpl snd; simpl fst.
  - match goal with
    | |- context [reply h ?s] =>
        exists s; destruct (reply_no_post h s) as (_ & res & Hres);
        destruct (reply h s) as [tr' r]
    end.
    simpl in Hres. subst r. exists res. split; [reflexivity|].
    simpl. rewrite app_nil_r. reflexivity.
  - reflexivity.
Qed.

(** X11. With a user identifier, a host and a port, [execute] reports what
    [send_like] returned: the same success flag, after the same HTTP calls, and
    [reply] is called once, after the last HTTP call. *)
Theorem execute_reports_send_like success total message :
  truthy the_user = true → truthy the_host = true → truthy the_port = true →
  snd (send_like repr accepts (napcat h) the_user the_host the_port the_token) =
    Returned (success, total, message) →
  ∃ raw_reply reply_result,
    snd (reply h raw_reply) = Returned reply_result ∧
    execute repr accepts h =
      (lookups h ++ fst (send_like repr accepts (napcat h) the_user the_host the_port the_token) ++
         fst (reply h raw_reply),
       Returned (success, Some (raw_reply +:+ " " +:+ reply_result), 1)) ∧
    http_calls (execute repr accepts h) =
      http_calls (send_like repr accepts (napcat h) the_user the_host the_port the_token).
Proof.
  intros Hu Hh Hp Hret. pose proof (execute_passed Hu Hh Hp) as Hex. cbv zeta in Hex.
  rewrite Hret in Hex. destruct Hex as (raw & res & Hres & Hex).
  exists raw, res. split; [assumption|]. split; [assumption|].
  rewrite Hex. unfold http_calls. simpl.
  rewrite !List.filter_app, (proj1 (reply_no_post h raw)), app_nil_r. reflexivity.
Qed.

(** X12. When the gateway's first reply is a JSON document that is not an
    object, [execute] raises AttributeError after its one HTTP call, and the
    user is sent nothing. (That a reply arrives says that the client was
    built.) *)
Theorem execute_raises_silently :
  truthy the_user = true → truthy the_host = true → truthy the_port = true →
  accepts (base_url_of repr the_host the_port) = true →
  not_an_object (napcat h 0%nat) = true →
  snd (execute repr accepts h) = Raises AttributeError ∧
  http_calls (execute repr accepts h) = 1%nat ∧
  sent_texts (fst (execute repr accepts h)) = [].
Proof.
  intros Hu Hh Hp Hacc Hobj. pose proof (execute_passed Hu Hh Hp) as Hex. cbv zeta in Hex.
  assert (Hloop : send_like_loop (napcat h) initial =
            Raised AttributeError (LoopState 0 (VStr "") 1)).
  { rewrite send_like_loop_step. simpl posts.
    rewrite loop_body_not_an_object by assumption. reflexivity. }
  unfold send_like in Hex. rewrite Hacc, Hloop in Hex. simpl in Hex.
  rewrite Hex. repeat split; reflexivity.
Qed.

(** X13. [execute] never makes more than five HTTP calls, and it makes none
    exactly when the user identifier, the host or the port is missing, or
    httpx refuses the base URL made of host and port. *)
Theorem execute_http_calls :
  (http_calls (execute repr accepts h) ≤ 5)%nat ∧
  (http_calls (execute repr accepts h) = 0%nat ↔
   truthy the_user = false ∨ truthy the_host = false ∨ truthy the_port = false ∨
   accepts (base_url_of repr the_host the_port) = false).
Proof.
  destruct (truthy the_user) eqn:Hu, (truthy the_host) eqn:Hh, (truthy the_port) eqn:Hp;
    try (destruct execute_stopped as (H0 & _); [rewrite ?Hu, ?Hh, ?Hp; tauto|];
         rewrite H0; split; [lia | tauto]).
  pose proof (execute_passed Hu Hh Hp) as Hex. cbv zeta in Hex.
  pose proof (send_like_calls (napcat h) the_user the_host the_port the_token) as Hcalls.
  assert (Hsame : http_calls (execute repr accepts h) =
            http_calls (send_like repr accepts (napcat h) the_user the_host the_port the_token)).
  { destruct (send_like _ _ _ _ _ _ _) as [tr [[[success total] message]|e]]; simpl in Hex.
    - destruct Hex as (raw & res & _ & ->). unfold http_calls. simpl.
      rewrite !List.filter_app, (proj1 (reply_no_post h raw)), app_nil_r. reflexivity.
    - rewrite Hex. reflexivity. }
  rewrite Hsame. revert Hcalls. destruct (accepts (base_url_of repr the_host the_port)).
  - intros Hcalls. split; [lia|]. split; [lia|]. intros [?|[?|[?|?]]]; discriminate.
  - intros ->. split; [lia|]. tauto.
Qed.

(** X14. When [execute] returns, it reports success exactly when the user
    identifier, the host and the port are there and the gateway's first reply
    is a JSON object with status ok. *)
Theorem execute_success_iff success message code :
  snd (execute repr accepts h) = Returned (success, message, code) →
  (success = true ↔
   truthy the_user = true ∧ truthy the_host = true ∧ truthy the_port = true ∧
   ok_reply (napcat h 0%nat) = true).
Proof.
  intros Hret.
  destruct (truthy the_user) eqn:Hu, (truthy the_host) eqn:Hh, (truthy the_port) eqn:Hp;
    try (destruct execute_stopped as (_ & m & Hm); [rewrite ?Hu, ?Hh, ?Hp; tauto|];
         rewrite Hm in Hret; injection Hret as <- _ _;
         split; [discriminate | intros (? & ? & ? & _); discriminate]).
  pose proof (execute_passed Hu Hh Hp) as Hex. cbv zeta in Hex. unfold send_like in Hex.
  destruct (accepts (base_url_of repr the_host the_port));
    [|simpl in Hex; rewrite Hex in Hret; discriminate].
  destruct (ok_reply (napcat h 0%nat)) eqn:Hok.
  - pose proof (loop_after_first_ok (napcat h) Hok) as Hpos.
    destruct (send_like_loop (napcat h) initial) as [st|e st]; simpl in Hex, Hpos.
    + destruct (Z.ltb_spec 0 (count st)); [|lia].
      destruct Hex as (raw & res & _ & Hex). rewrite Hex in Hret.
      injection Hret as <- _ _. tauto.
    + rewrite Hex in Hret. discriminate.
  - destruct (loop_first_not_ok (napcat h) Hok) as [(_ & st & Hloop)|(msg & Hloop & _)];
      rewrite Hloop in Hex; simpl in Hex.
    + rewrite Hex in Hret. discriminate.
    + destruct Hex as (raw & res & _ & Hex). rewrite Hex in Hret.
      injection Hret as <- _ _. split; [discriminate | intros (_ & _ & _ & [=])].
Qed.

End ExecuteMore.

(** * The further properties at concrete inputs *)

Lemma send_like_failure_after_success_witness :
  snd (send_like_to gateway_two_ok) = Returned (true, 10 * Z.of_nat 2, VStr "") ∧
  http_calls (send_like_to gateway_two_ok) = 3%nat.
Proof.
  apply send_like_failure_after_success; [reflexivity | lia | | reflexivity | reflexivity].
  intros [|[|i]] Hi; [reflexivity | reflexivity | lia].
Defined.

Lemma send_like_not_an_object_witness :
  snd (send_like_to gateway_two_ok_then_array) = Raises AttributeError ∧
  http_calls (send_like_to gateway_two_ok_then_array) = 3%nat.
Proof.
  apply (send_like_not_an_object repr_opaque accepts_numeric_port (VStr "10001")
           (VStr "127.0.0.1") (VInt 9999) (VStr "") gateway_two_ok_then_array 2);
    [reflexivity | lia | | reflexivity].
  intros [|[|i]] Hi; [reflexivity | reflexivity | lia].
Defined.

Lemma send_like_protocol_failure_witness :
  snd (send_like_to (λ _, JsonRaises "<html>")) = Returned (false, 0, VStr "响应解析失败").
Proof.
  apply (send_like_protocol_failure repr_opaque accepts_numeric_port (VStr "10001")
           (VStr "127.0.0.1") (VInt 9999) (VStr "") (λ _, JsonRaises "<html>")).
  reflexivity.
Defined.

Lemma send_like_failure_has_message_witness :
  snd (send_like_to gateway_refusing) = Returned (false, 0, VStr "limit") ∧
  truthy (VStr "limit") = true.
Proof.
  split; [reflexivity|].
  apply (send_like_failure_has_message repr_opaque accepts_numeric_port (VStr "10001")
           (VStr "127.0.0.1") (VInt 9999) (VStr "") gateway_refusing 0 (VStr "limit")).
  reflexivity.
Defined.

Lemma send_like_success_iff_first_ok_witness :
  snd (send_like_to gateway_all_ok) = Returned (true, 50, VStr "") ∧
  (true = true ↔ ok_reply (gateway_all_ok 0%nat) = true).
Proof.
  split; [reflexivity|].
  apply (send_like_success_iff_first_ok repr_opaque accepts_numeric_port (VStr "10001")
           (VStr "127.0.0.1") (VInt 9999) (VStr "") gateway_all_ok true 50 (VStr "")).
  reflexivity.
Defined.

Lemma send_like_requests_witness :
  ∃ headers : gmap string value,
    EvPost "http://localhost:3000" "/send_like"
      (VDict {[ "user_id" := VStr "10001"; "times" := VInt 10 ]})
      {[ "Content-Type" := VStr "application/json"; "Authorization" := VStr "secret" ]} =
    EvPost ("http://" +:+ py_str repr_opaque (VStr "localhost") +:+ ":" +:+
            py_str repr_opaque (VInt 3000)) "/send_like"
      (VDict {[ "user_id" := VStr "10001"; "times" := VInt 10 ]}) headers ∧
    headers !! "Content-Type" = Some (VStr "application/json") ∧
    headers !! "Authorization" = (if truthy (VStr "secret") then Some (VStr "secret") else None) ∧
    ∀ name, name ≠ "Content-Type" → name ≠ "Authorization" → headers !! name = None.
Proof.
  apply (send_like_requests repr_opaque accepts_numeric_port (VStr "10001") (VStr "localhost")
           (VInt 3000) (VStr "secret") gateway_down).
  left. reflexivity.
Defined.

Lemma reply_rewritten_witness :
  let h := host_rewriting (VBool true) [VStr "a"; VStr "b"; VStr "c"] gateway_all_ok in
  fst (reply h "done") =
    EvRewrite rewrite_data_done (VBool false) (VBool false) ::
      flat_map (λ send_data, [EvSendText send_data; EvSleep 300]) [VStr "a"; VStr "b"; VStr "c"] ∧
  sent_texts (fst (reply h "done")) = [VStr "a"; VStr "b"; VStr "c"] ∧
  snd (reply h "done") = Returned "已发送重写后的点赞回复".
Proof.
  apply (reply_rewritten (host_rewriting (VBool true) [VStr "a"; VStr "b"; VStr "c"] gateway_all_ok)
           "done" rewrite_data_done (VBool false) (VBool false) (VBool true)
           [VStr "a"; VStr "b"; VStr "c"]).
  - left. reflexivity.
  - reflexivity.
  - reflexivity.
Defined.

Lemma reply_fallback_witness :
  sent_texts (fst (reply (host_rewriting VNone [] gateway_all_ok) "done")) = [VStr "done"] ∧
  pauses (fst (reply (host_rewriting VNone [] gateway_all_ok) "done")) = [] ∧
  snd (reply (host_rewriting VNone [] gateway_all_ok) "done") = Returned "已发送点赞回复".
Proof.
  apply reply_fallback. right.
  exists rewrite_data_done, (VBool false), (VBool false).
  split; [left; reflexivity | reflexivity].
Defined.

Ltac declared_by section field :=
  exists section; eexists; exists field; eexists;
  split; [reflexivity | split; reflexivity].

Lemma config_rewriting_declared key v : config_rewriting !! key = Some v → declared key.
Proof.
  unfold config_rewriting. intros H.
  apply lookup_insert_Some in H as [[<- _]|[_ H]];
    [declared_by "like_plugin" "enable_rewrite_reply"|].
  apply lookup_insert_Some in H as [[<- _]|[_ H]];
    [declared_by "like_plugin" "enable_splitter"|].
  apply lookup_insert_Some in H as [[<- _]|[_ H]]; [declared_by "napcat" "host"|].
  apply lookup_singleton_Some in H as [<- _]. declared_by "napcat" "port".
Qed.

Lemma reply_splitter_off_witness :
  plugin_config (host_rewriting (VBool true) [] gateway_all_ok)
    !! "like_plugin.enable_splitter" = Some (VBool true) ∧
  In (EvRewrite rewrite_data_done (VBool false) (VBool false))
     (fst (reply (host_rewriting (VBool true) [] gateway_all_ok) "done")) ∧
  VBool false = VBool false.
Proof.
  split; [reflexivity|]. split; [left; reflexivity|].
  apply (reply_splitter_off (host_rewriting (VBool true) [] gateway_all_ok) "done"
           rewrite_data_done (VBool false) (VBool false)).
  - exact config_rewriting_declared.
  - left. reflexivity.
Defined.

Lemma execute_reports_send_like_witness :
  ∃ raw_reply reply_result,
    snd (reply (host_ready gateway_two_ok) raw_reply) = Returned reply_result ∧
    execute_at (host_ready gateway_two_ok) =
      (lookups (host_ready gateway_two_ok) ++ fst (send_like_to gateway_two_ok) ++
         fst (reply (host_ready gateway_two_ok) raw_reply),
       Returned (true, Some (raw_reply +:+ " " +:+ reply_result), 1)) ∧
    http_calls (execute_at (host_ready gateway_two_ok)) =
      http_calls (send_like_to gateway_two_ok).
Proof.
  apply (execute_reports_send_like repr_opaque accepts_numeric_port (host_ready gateway_two_ok)
           true 20 (VStr ""));
    reflexivity.
Defined.

Lemma execute_raises_silently_witness :
  snd (execute_at (host_ready gateway_array)) = Raises AttributeError ∧
  http_calls (execute_at (host_ready gateway_array)) = 1%nat ∧
  sent_texts (fst (execute_at (host_ready gateway_array))) = [].
Proof. apply execute_raises_silently; reflexivity. Defined.

Lemma execute_success_iff_witness :
  snd (execute_at (host_ready gateway_refusing)) =
    Returned (false, Some "为 Mai 点赞失败: limit 已发送点赞回复", 1) ∧
  (false = true ↔
   truthy (message_user_id (host_ready gateway_refusing)) = true ∧
   truthy (get_config (host_ready gateway_refusing) "napcat.host" VNone) = true ∧
   truthy (get_config (host_ready gateway_refusing) "napcat.port" VNone) = true ∧
   ok_reply (napcat (host_ready gateway_refusing) 0%nat) = true).
Proof.
  split; [reflexivity|].
  apply (execute_success_iff repr_opaque accepts_numeric_port (host_ready gateway_refusing) false
           (Some "为 Mai 点赞失败: limit 已发送点赞回复") 1).
  reflexivity.
Defined.
